(** * Refund signal handlers of [lms/djangoapps/commerce/signals.py]

    A shallow embedding of the commerce signal receivers and of the helpers
    they call.  Python code with effects is written in a small monad [Py]
    that threads a world (the object store and the trace of log records and
    collaborator calls) and carries a raised exception; everything outside
    the module (models, the request cache, the REST client, [requests],
    site configuration) is a field of [collaborators], free to answer or to
    raise, and free to answer differently on every call. *)

From Stdlib Require Import ZArith String List Bool Ascii DecimalString.
From stdpp Require Import base option list gmap strings.

Local Open Scope Z_scope.
Local Open Scope string_scope.
Local Open Scope list_scope.

(** ** Exceptions *)

(** A message as Python 2 holds it: a byte string or a unicode object. *)
Inductive text : Type :=
| Bytes (s : string)
| Unicode (s : string).

(** The classes that matter to the handlers of this module: [except
    Exception] catches what derives from [Exception]; a bare [except:]
    catches everything, also [KeyboardInterrupt], [SystemExit] and
    [GeneratorExit], which derive from [BaseException] only.  The message
    of the [NotImplementedError] of this module is a unicode literal
    ([unicode_literals] is in force); the message of an [AttributeError]
    is built by the interpreter. *)
Inductive exn : Type :=
| NotImplementedError (msg : string)
| AttributeError (class attr : string)
| ExceptionSubclass (class : string) (msg : text)
| BaseExceptionOnly (class : string) (msg : text).

Definition isinstance_Exception (e : exn) : bool :=
  match e with
  | BaseExceptionOnly _ _ => false
  | _ => true
  end.

(** ** Domain objects *)

Record User : Type := mkUser {
  id : Z;
  username : string;
  email : string
}.

(** What [RequestCache.get_current_request().user] can hold. *)
Inductive request_user : Type :=
| AnonymousUser
| Authenticated (u : User).

(** Django's [Model.__eq__]: same concrete model and same primary key; an
    [AnonymousUser] is not a model instance and is equal to no [User]. *)
Definition user_eq (owner : User) (r : request_user) : bool :=
  match r with
  | AnonymousUser => false
  | Authenticated u => Z.eqb (id owner) (id u)
  end.

Record CourseEnrollment : Type := mkEnrollment {
  enrollment_user : User;
  enrollment_course_id : string;
  enrollment_mode : string
}.

Record CourseEntitlement : Type := mkEntitlement {
  entitlement_user : User;
  entitlement_uuid : string;
  entitlement_order_number : string;
  entitlement_mode : string
}.

(** Modelled from the spec: the model classes [CourseEnrollment]
    ([student.models]) and [CourseEntitlement] ([entitlements.models]) are
    not part of this module.  The data model describes the refundable
    product as a variant with shared fields (owning user, mode) and a
    variant-specific identifier: a course key for an enrollment, a UUID and
    an order number for an entitlement.  The records above carry exactly the
    attributes this module reads from each ([refund_seat] reads [course_id],
    [refund_entitlement] reads [uuid] and [order_number]). *)
Inductive course_product : Type :=
| Enrollment (course_enrollment : CourseEnrollment)
| Entitlement (course_entitlement : CourseEntitlement).

Definition product_user (p : course_product) : User :=
  match p with
  | Enrollment ce => enrollment_user ce
  | Entitlement ent => entitlement_user ent
  end.

Definition product_mode (p : course_product) : string :=
  match p with
  | Enrollment ce => enrollment_mode ce
  | Entitlement ent => entitlement_mode ent
  end.

(** ** Payloads *)

(** The dict posted to the refunds endpoint, keys in source order. *)
Definition refund_request : Type := list (string * string).

#[local] Unset Elimination Schemes.
Inductive json : Type :=
| JStr (s : string)
| JList (l : list json)
| JObj (fields : list (string * json)).
#[local] Set Elimination Schemes.

(** The slumber client built by [ecommerce_api_client(service_user)]. *)
Record api_client : Type := mkClient { client_user : User }.

Record response : Type := mkResponse {
  status_code : Z;
  content : string
}.

(** ** The trace *)

Inductive level : Type := DEBUG | INFO | WARNING | ERROR.

Inductive logarg : Type :=
| ArgInt (z : Z)
| ArgStr (s : string)
| ArgIds (l : list Z).

(** Calls that leave the module. *)
Inductive call : Type :=
| IsCommerceServiceConfigured
| Refundable (ce : CourseEnrollment)
| IsEntitlementRefundable (ent : CourseEntitlement)
| GetCurrentRequest
| CommerceConfigurationCurrent
| ServiceUserLookup (worker : string)
| EcommerceApiClient (service_user : User)
| RefundsPost (client : api_client) (payload : refund_request)
| RefundsProcessPut (client : api_client) (refund_id : Z) (action : string)
| IsRequestInThemedSite
| SiteConfigurationGetValue (key dflt : string)
| UserProfileName (student : User)
| RequestsPost (url data : string) (auth : string * string)
    (headers : list (string * string)).

(** [Log lvl fmt args exc]: one record handed to the module logger; [exc]
    is the exception attached by [log.exception] or [exc_info=True]. *)
Inductive event : Type :=
| Log (lvl : level) (fmt : string) (args : list logarg) (exc : option exn)
| Called (c : call).

(** Network requests to the commerce service or to the ticketing system. *)
Definition is_outbound (ev : event) : bool :=
  match ev with
  | Called (RefundsPost _ _) => true
  | Called (RefundsProcessPut _ _ _) => true
  | Called (RequestsPost _ _ _ _) => true
  | _ => false
  end.

Definition is_approval_call (ev : event) : bool :=
  match ev with
  | Called (RefundsProcessPut _ _ _) => true
  | _ => false
  end.

Definition is_ticket_post (ev : event) : bool :=
  match ev with
  | Called (RequestsPost _ _ _ _) => true
  | _ => false
  end.

(** ** The world and the monad *)

(** Python list objects live in a store and are passed by reference. *)
Definition loc : Type := nat.

Record world : Type := mkWorld {
  heap : gmap loc (list string);
  trace : list event
}.

Inductive outcome (A : Type) : Type :=
| Normal (a : A)
| Raised (e : exn).
Arguments Normal {A} a.
Arguments Raised {A} e.

(** No character of [s] is beyond the 7 bits of ASCII. *)
Definition is_ascii (s : string) : bool :=
  forallb (fun c => match c with
                    | Ascii _ _ _ _ _ _ _ high => negb high
                    end)
    (list_ascii_of_string s).

(** [str(m)] in Python 2: a byte string is returned as it is, a unicode
    object is encoded with the ASCII codec, which fails on any other
    character. *)
Definition py_str_text (m : text) : outcome string :=
  match m with
  | Bytes s => Normal s
  | Unicode s =>
      if is_ascii s then Normal s
      else Raised (ExceptionSubclass "UnicodeEncodeError"
                     (Bytes "'ascii' codec can't encode character: ordinal not in range(128)"))
  end.

(** [str(exc)]: the message of the exception as a byte string. *)
Definition py_str_exn (e : exn) : outcome string :=
  match e with
  | NotImplementedError m => py_str_text (Unicode m)
  | AttributeError c a =>
      Normal ("'" +:+ c +:+ "' object has no attribute '" +:+ a +:+ "'")
  | ExceptionSubclass _ m => py_str_text m
  | BaseExceptionOnly _ m => py_str_text m
  end.

Definition Py (A : Type) : Type := world -> outcome A * world.

Definition ret {A} (a : A) : Py A := fun w => (Normal a, w).

Definition raise {A} (e : exn) : Py A := fun w => (Raised e, w).

Definition bind {A B} (m : Py A) (k : A -> Py B) : Py B :=
  fun w =>
    match m w with
    | (Normal a, w') => k a w'
    | (Raised e, w') => (Raised e, w')
    end.

Notation "x <- m ;; k" := (bind m (fun x => k))
  (at level 100, m at next level, right associativity).
Notation "m ;; k" := (bind m (fun _ => k))
  (at level 100, right associativity).

(** [try: body except <classes>: handler]; [catches] says which exceptions
    the clause matches. *)
Definition try_except {A} (body : Py A) (catches : exn -> bool)
    (handler : exn -> Py A) : Py A :=
  fun w =>
    match body w with
    | (Normal a, w') => (Normal a, w')
    | (Raised e, w') =>
        if catches e then handler e w' else (Raised e, w')
    end.

Definition except_Exception : exn -> bool := isinstance_Exception.
Definition except_all : exn -> bool := fun _ => true.

Definition emit (ev : event) (w : world) : world :=
  mkWorld (heap w) (trace w ++ [ev]).

(** A call to a collaborator: it is recorded, then answered from the
    history so far. *)
Definition invoke {A} (c : call) (answer : list event -> outcome A) : Py A :=
  fun w => (answer (trace w), emit (Called c) w).

Definition log (lvl : level) (fmt : string) (args : list logarg)
    (exc : option exn) : Py unit :=
  fun w => (Normal tt, emit (Log lvl fmt args exc) w).

Definition log_debug fmt args := log DEBUG fmt args None.
Definition log_info fmt args := log INFO fmt args None.
Definition log_error fmt args := log ERROR fmt args None.
Definition log_exception fmt args (e : exn) := log ERROR fmt args (Some e).

(** List objects. *)
Definition new_list (xs : list string) : Py loc :=
  fun w =>
    let l := fresh (dom (heap w)) in
    (Normal l, mkWorld (<[l := xs]> (heap w)) (trace w)).

(** A reference held by running code always points to an object. *)
Definition read_list (l : loc) : Py (list string) :=
  fun w => (Normal (default [] (heap w !! l)), w).

Definition list_append (l : loc) (x : string) : Py unit :=
  fun w =>
    (Normal tt,
     mkWorld (<[l := default [] (heap w !! l) ++ [x]]> (heap w)) (trace w)).

(** ** Settings and collaborators *)

Record Settings : Type := mkSettings {
  ZENDESK_URL : option string;
  ZENDESK_USER : option string;
  ZENDESK_API_KEY : option string;
  ECOMMERCE_PUBLIC_URL_ROOT : string;
  ECOMMERCE_SERVICE_WORKER_USERNAME : string
}.

(** The current request as this module sees it: [getattr(request, 'user',
    None)] is [None] when the attribute is missing. *)
Record http_request : Type := mkRequest { request_user_attr : option request_user }.

(** Everything imported by the module.  A stateful collaborator answers
    from the trace so far, so the same call may succeed once and fail the
    next time. *)
Record collaborators : Type := mkCollaborators {
  settings : Settings;
  ugettext : string -> string;
  urljoin : string -> string -> string;
  json_dumps : json -> string;
  format_kw : string -> list (string * string) -> outcome string;
  is_commerce_service_configured : list event -> outcome bool;
  refundable : CourseEnrollment -> list event -> outcome bool;
  is_entitlement_refundable : CourseEntitlement -> list event -> outcome bool;
  get_current_request : list event -> outcome (option http_request);
  CommerceConfiguration_current : list event -> outcome bool;
  User_objects_get : string -> list event -> outcome User;
  ecommerce_api_client : User -> list event -> outcome api_client;
  refunds_post : api_client -> refund_request -> list event -> outcome (list Z);
  refunds_process_put : api_client -> Z -> string -> list event -> outcome unit;
  is_request_in_themed_site : list event -> outcome bool;
  configuration_helpers_get_value : string -> string -> list event -> outcome string;
  profile_name : User -> list event -> outcome string;
  requests_post : string -> string -> string * string ->
                  list (string * string) -> list event -> outcome response
}.

(** ** Python builtins used by the module *)

(** Truth value of a setting that is [None] or a string. *)
Definition truthy (o : option string) : bool :=
  match o with
  | None => false
  | Some s => negb (String.eqb s "")
  end.

Definition nonempty {A} (l : list A) : bool :=
  match l with
  | [] => false
  | _ :: _ => true
  end.

(** ['{}'.format(n)] for an integer. *)
Definition str_int (z : Z) : string :=
  DecimalString.NilZero.string_of_int (Z.to_int z).

Definition newline : string := String (ascii_of_nat 10) EmptyString.

(** [sep.join(parts)]. *)
Fixpoint join (sep : string) (parts : list string) : string :=
  match parts with
  | [] => ""
  | [x] => x
  | x :: rest => x +:+ sep +:+ join sep rest
  end.

(** [list(set(tags))]: the elements without repetition.  Python fixes no
    iteration order for a set; the order chosen here is not relied upon. *)
Definition list_set (tags : list string) : list string := remove_dups tags.

(** [x or y] on a possibly missing user object; user objects are truthy. *)
Definition or_user (x : option request_user) (y : request_user) : request_user :=
  match x with
  | Some u => u
  | None => y
  end.

Definition isinstance_AnonymousUser (r : request_user) : bool :=
  match r with
  | AnonymousUser => true
  | Authenticated _ => false
  end.

(** Attribute reads that depend on the variant. *)
Definition getattr_course_id (p : course_product) : Py string :=
  match p with
  | Enrollment ce => ret (enrollment_course_id ce)
  | Entitlement _ => raise (AttributeError "CourseEntitlement" "course_id")
  end.

Definition getattr_uuid (p : course_product) : Py string :=
  match p with
  | Enrollment _ => raise (AttributeError "CourseEnrollment" "uuid")
  | Entitlement ent => ret (entitlement_uuid ent)
  end.

Definition lift {A} (o : outcome A) : Py A := fun w => (o, w).

(** ** The module *)

Section Signals.

Variable env : collaborators.

(** [get_request_user] *)
Definition get_request_user : Py (option request_user) :=
  request <- invoke GetCurrentRequest (get_current_request env) ;;
  ret (match request with
       | None => None
       | Some r => request_user_attr r
       end).

(** [create_zendesk_ticket]; [tags] is [None] or a reference to the
    caller's list. *)
Definition create_zendesk_ticket (requester_name requester_email subject
    body : string) (tags : option loc) : Py unit :=
  if negb (truthy (ZENDESK_URL (settings env))
           && truthy (ZENDESK_USER (settings env))
           && truthy (ZENDESK_API_KEY (settings env)))
  then log_debug "Zendesk is not configured. Cannot create a ticket." []
  else
    (* tags = list(tags or []): the elements of the argument, none when
       it is None or an empty list *)
    given <- match tags with
             | None => ret []
             | Some l => read_list l
             end ;;
    tags <- new_list given ;;
    list_append tags "LMS" ;;
    (* tags = list(set(tags)) *)
    with_marker <- read_list tags ;;
    tags <- new_list (list_set with_marker) ;;
    tag_values <- read_list tags ;;
    let data :=
      JObj [("ticket",
             JObj [("requester", JObj [("name", JStr requester_name);
                                       ("email", JStr requester_email)]);
                   ("subject", JStr subject);
                   ("comment", JObj [("body", JStr body)]);
                   ("tags", JList (map JStr tag_values))])] in
    let payload := json_dumps env data in
    let url := urljoin env (default "" (ZENDESK_URL (settings env)))
                 "/api/v2/tickets.json" in
    let user := default "" (ZENDESK_USER (settings env)) +:+ "/token" in
    let pwd := default "" (ZENDESK_API_KEY (settings env)) in
    let headers := [("content-type", "application/json")] in
    try_except
      (response <- invoke (RequestsPost url payload (user, pwd) headers)
                     (requests_post env url payload (user, pwd) headers) ;;
       if negb (Z.eqb (status_code response) 201)
       then log_error "Failed to create ticket. Status: [%d], Body: [%s]"
              [ArgInt (status_code response); ArgStr (content response)]
       else log_debug "Successfully created ticket." [])
      except_Exception
      (fun e => log_exception "Failed to create ticket." [] e).

(** [generate_refund_notification_body] *)
Definition generate_refund_notification_body (student : User)
    (refund_ids : list Z) : Py string :=
  msg <- lift (format_kw env
           (ugettext env
              ("A refund request has been initiated for {username} ({email}). "
               +:+ "To process this request, please visit the link(s) below."))
           [("username", username student); ("email", email student)]) ;;
  ecommerce_url_root <-
    invoke (SiteConfigurationGetValue "ECOMMERCE_PUBLIC_URL_ROOT"
              (ECOMMERCE_PUBLIC_URL_ROOT (settings env)))
           (configuration_helpers_get_value env "ECOMMERCE_PUBLIC_URL_ROOT"
              (ECOMMERCE_PUBLIC_URL_ROOT (settings env))) ;;
  let refund_urls :=
    map (fun refund_id =>
           urljoin env ecommerce_url_root
             ("/dashboard/refunds/" +:+ str_int refund_id +:+ "/"))
        refund_ids in
  ret (msg +:+ newline +:+ newline +:+ join newline refund_urls).

(** [send_refund_notification] *)
Definition send_refund_notification (course_product : course_product)
    (refund_ids : list Z) : Py unit :=
  tags <- new_list ["auto_refund"] ;;
  themed <- invoke IsRequestInThemedSite (is_request_in_themed_site env) ;;
  if themed : bool
  then raise (NotImplementedError
                "Unable to send refund processing emails to support teams.")
  else
    let student := product_user course_product in
    let subject := ugettext env "[Refund] User-Requested Refund" in
    body <- generate_refund_notification_body student refund_ids ;;
    name <- invoke (UserProfileName student) (profile_name env student) ;;
    let requester_name :=
      if String.eqb name "" then username student else name in
    create_zendesk_ticket requester_name (email student) subject body
      (Some tags).

(** The [for] loop of [_process_refund]: one guarded approval per refund
    ID, the IDs whose approval raised being appended to
    [refunds_requiring_approval]. *)
Fixpoint approve_each (api_client : api_client) (refund_ids : list Z)
    (refunds_requiring_approval : list Z) : Py (list Z) :=
  match refund_ids with
  | [] => ret refunds_requiring_approval
  | refund_id :: rest =>
      refunds_requiring_approval <-
        try_except
          (invoke (RefundsProcessPut api_client refund_id "approve_payment_only")
             (refunds_process_put env api_client refund_id
                "approve_payment_only") ;;
           log_info "Refund [%d] successfully approved." [ArgInt refund_id] ;;
           ret refunds_requiring_approval)
          except_all
          (fun e =>
             log_exception "Failed to automatically approve refund [%d]!"
               [ArgInt refund_id] e ;;
             ret (refunds_requiring_approval ++ [refund_id])) ;;
      approve_each api_client rest refunds_requiring_approval
  end.

(** First half of [_process_refund]: the [if
    config.enable_automatic_refund_approval] statement, whose value is the
    list bound to [refunds_requiring_approval]. *)
Definition requiring_approval (enable_automatic_refund_approval : bool)
    (api_client : api_client) (refund_ids : list Z) : Py (list Z) :=
  if enable_automatic_refund_approval
  then approve_each api_client refund_ids []
  else ret refund_ids.

(** Second half of [_process_refund]: the [if refunds_requiring_approval]
    statement. *)
Definition notify_or_skip (course_product : course_product)
    (is_entitlement : bool) (refunds_requiring_approval : list Z) : Py unit :=
  if nonempty refunds_requiring_approval then
    if negb (String.eqb (product_mode course_product) "verified") then
      let msg := "Skipping refund email notification for non-verified mode for user [%s], course [%s], mode: [%s]" in
      course_identifier <- getattr_course_id course_product ;;
      named <- (if is_entitlement
                then
                  uuid <- getattr_uuid course_product ;;
                  ret (uuid,
                       "Skipping refund email notification for non-verified mode for user [%s], "
                       +:+ "course entitlement [%s], mode: [%s]")
                else ret (course_identifier, msg)) ;;
      log_info (snd named)
        [ArgInt (id (product_user course_product));
         ArgStr (fst named);
         ArgStr (product_mode course_product)]
    else
      try_except
        (send_refund_notification course_product refunds_requiring_approval)
        except_all
        (fun e =>
           log WARNING "Could not send email notification for refund." []
             (Some e))
  else ret tt.

(** [_process_refund] *)
Definition _process_refund (refund_ids : list Z) (api_client : api_client)
    (course_product : course_product) (is_entitlement : bool) : Py unit :=
  enable_automatic_refund_approval <-
    invoke CommerceConfigurationCurrent (CommerceConfiguration_current env) ;;
  refunds_requiring_approval <-
    requiring_approval enable_automatic_refund_approval api_client refund_ids ;;
  notify_or_skip course_product is_entitlement refunds_requiring_approval.

(** [refund_seat] *)
Definition refund_seat (course_enrollment : CourseEnrollment) : Py (list Z) :=
  let course_key_str := enrollment_course_id course_enrollment in
  let enrollee := enrollment_user course_enrollment in
  service_user <-
    invoke (ServiceUserLookup (ECOMMERCE_SERVICE_WORKER_USERNAME (settings env)))
      (User_objects_get env (ECOMMERCE_SERVICE_WORKER_USERNAME (settings env))) ;;
  api_client <- invoke (EcommerceApiClient service_user)
                  (ecommerce_api_client env service_user) ;;
  log_info "Attempting to create a refund for user [%s], course [%s]..."
    [ArgInt (id enrollee); ArgStr course_key_str] ;;
  let payload := [("course_id", course_key_str);
                  ("username", username enrollee)] in
  refund_ids <- invoke (RefundsPost api_client payload)
                  (refunds_post env api_client payload) ;;
  (if nonempty refund_ids then
     log_info "Refund successfully opened for user [%s], course [%s]: %r"
       [ArgInt (id enrollee); ArgStr course_key_str; ArgIds refund_ids] ;;
     _process_refund refund_ids api_client (Enrollment course_enrollment) false
   else
     log_info "No refund opened for user [%s], course [%s]"
       [ArgInt (id enrollee); ArgStr course_key_str]) ;;
  ret refund_ids.

(** [refund_entitlement] *)
Definition refund_entitlement (course_entitlement : CourseEntitlement)
    : Py (list Z) :=
  let enrollee := entitlement_user course_entitlement in
  let entitlement_uuid := entitlement_uuid course_entitlement in
  service_user <-
    invoke (ServiceUserLookup (ECOMMERCE_SERVICE_WORKER_USERNAME (settings env)))
      (User_objects_get env (ECOMMERCE_SERVICE_WORKER_USERNAME (settings env))) ;;
  api_client <- invoke (EcommerceApiClient service_user)
                  (ecommerce_api_client env service_user) ;;
  log_info
    "Attempting to create a refund for user [%s], course entitlement [%s]..."
    [ArgStr (username enrollee); ArgStr entitlement_uuid] ;;
  let payload := [("order_number", entitlement_order_number course_entitlement);
                  ("username", username enrollee);
                  ("entitlement_uuid", entitlement_uuid)] in
  refund_ids <- invoke (RefundsPost api_client payload)
                  (refunds_post env api_client payload) ;;
  (if nonempty refund_ids then
     log_info
       "Refund successfully opened for user [%s], course entitlement [%s]: %r"
       [ArgStr (username enrollee); ArgStr entitlement_uuid; ArgIds refund_ids] ;;
     _process_refund refund_ids api_client (Entitlement course_entitlement) true
   else
     log_info "No refund opened for user [%s], course entitlement [%s]"
       [ArgInt (id enrollee); ArgStr entitlement_uuid]) ;;
  ret refund_ids.

(** [handle_refund_order], the receiver of [REFUND_ORDER].  The keyword
    argument defaults to [None]; [sender] is not used. *)
Definition handle_refund_order (course_enrollment : option CourseEnrollment)
    : Py unit :=
  configured <- invoke IsCommerceServiceConfigured
                  (is_commerce_service_configured env) ;;
  if negb configured then ret tt
  else
    match course_enrollment with
    | None => ret tt
    | Some course_enrollment =>
        is_refundable <- invoke (Refundable course_enrollment)
                           (refundable env course_enrollment) ;;
        if is_refundable : bool then
          try_except
            (requester <- get_request_user ;;
             let request_user :=
               or_user requester
                 (Authenticated (enrollment_user course_enrollment)) in
             if isinstance_AnonymousUser request_user then ret tt
             else (refund_seat course_enrollment ;; ret tt))
            except_Exception
            (fun e =>
               log_exception
                 "Unexpected exception while attempting to initiate refund for user [%s], course [%s]"
                 [ArgInt (id (enrollment_user course_enrollment));
                  ArgStr (enrollment_course_id course_enrollment)] e)
        else ret tt
    end.

(** [handle_refund_entitlement], the receiver of [REFUND_ENTITLEMENT]. *)
Definition handle_refund_entitlement
    (course_entitlement : option CourseEntitlement) : Py unit :=
  configured <- invoke IsCommerceServiceConfigured
                  (is_commerce_service_configured env) ;;
  if negb configured then ret tt
  else
    match course_entitlement with
    | None => ret tt
    | Some course_entitlement =>
        is_refundable <- invoke (IsEntitlementRefundable course_entitlement)
                           (is_entitlement_refundable env course_entitlement) ;;
        if is_refundable : bool then
          try_except
            (request_user <- get_request_user ;;
             match request_user with
             | Some requester =>
                 if user_eq (entitlement_user course_entitlement) requester
                 then (refund_entitlement course_entitlement ;; ret tt)
                 else ret tt
             | None => ret tt
             end)
            except_Exception
            (fun e =>
               (* the arguments are evaluated first: str(exc) may raise *)
               message <- lift (py_str_exn e) ;;
               log_exception
                 ("Unexpected exception while attempting to initiate refund for user [%s], "
                  +:+ "course entitlement [%s] message: [%s]")
                 [ArgInt (id (entitlement_user course_entitlement));
                  ArgStr (entitlement_uuid course_entitlement);
                  ArgStr message] e)
        else ret tt
    end.

End Signals.

(** * Vocabulary of the statements *)

(** [emits P m]: running [m] only appends to the trace, and every event it
    appends satisfies [P]. *)
Definition extends_with (P : event -> bool) (w w' : world) : Prop :=
  exists seg, trace w' = trace w ++ seg /\ forallb P seg = true.

Definition emits {A} (P : event -> bool) (m : Py A) : Prop :=
  forall w, extends_with P w (m w).2.

(** Which exceptions a program may raise. *)
Definition raises_only {A} (Q : exn -> bool) (m : Py A) : Prop :=
  forall w e w', m w = (Raised e, w') -> Q e = true.

Definition never_raises {A} (m : Py A) : Prop :=
  forall w, exists a w', m w = (Normal a, w').

(** ** Reading the trace *)

(** The refund IDs whose approval request, among the events [later] that
    follow [history], was answered by an exception. *)
Fixpoint failed_approvals (env : collaborators) (history later : list event)
    : list Z :=
  match later with
  | [] => []
  | ev :: rest =>
      match ev with
      | Called (RefundsProcessPut client refund_id action) =>
          match refunds_process_put env client refund_id action history with
          | Raised _ => [refund_id]
          | Normal _ => []
          end
      | _ => []
      end ++ failed_approvals env (history ++ [ev]) rest
  end.

(** The refund IDs of the "failed to approve" records, in order. *)
Definition logged_approval_failures (seg : list event) : list Z :=
  flat_map
    (fun ev =>
       match ev with
       | Log ERROR fmt [ArgInt refund_id] (Some _) =>
           if String.eqb fmt "Failed to automatically approve refund [%d]!"
           then [refund_id] else []
       | _ => []
       end) seg.

Definition approval_of (client : api_client) (refund_id : Z) : event :=
  Called (RefundsProcessPut client refund_id "approve_payment_only").

Definition no_approval (ev : event) : bool := negb (is_approval_call ev).

(** Requests to the commerce service: opening and approving refunds. *)
Definition is_commerce_request (ev : event) : bool :=
  match ev with
  | Called (RefundsPost _ _) => true
  | Called (RefundsProcessPut _ _ _) => true
  | _ => false
  end.

Definition is_service_user_lookup (ev : event) : bool :=
  match ev with
  | Called (ServiceUserLookup _) => true
  | _ => false
  end.

(** The service user is found, a client is built for it, and the gateway
    answers the request to open a refund with [ids]. *)
Definition gateway_answers (env : collaborators) (client : api_client)
    (ids : list Z) : Prop :=
  (forall h, exists service_user,
      User_objects_get env (ECOMMERCE_SERVICE_WORKER_USERNAME (settings env)) h
      = Normal service_user
      /\ forall h', ecommerce_api_client env service_user h' = Normal client)
  /\ (forall payload h, refunds_post env client payload h = Normal ids).

(** The steps of [refund_seat] and [refund_entitlement] that come before
    the notification go through: the gateway opens [ids] and the
    configuration can be read. *)
Definition refunds_opened (env : collaborators) (client : api_client)
    (ids : list Z) : Prop :=
  gateway_answers env client ids
  /\ (forall h, exists flag, CommerceConfiguration_current env h = Normal flag).

Definition warning_not_sent (e : exn) : event :=
  Log WARNING "Could not send email notification for refund." [] (Some e).

(** The world in which [refund_seat] calls [_process_refund]: the service
    user was looked up, the client built, and the refunds [ids] opened. *)
Definition seat_opened (env : collaborators) (ce : CourseEnrollment)
    (service_user : User) (client : api_client) (ids : list Z) (w : world)
    : world :=
  mkWorld (heap w)
    (trace w ++
     [Called (ServiceUserLookup (ECOMMERCE_SERVICE_WORKER_USERNAME (settings env)));
      Called (EcommerceApiClient service_user);
      Log INFO "Attempting to create a refund for user [%s], course [%s]..."
        [ArgInt (id (enrollment_user ce)); ArgStr (enrollment_course_id ce)]
        None;
      Called (RefundsPost client
                [("course_id", enrollment_course_id ce);
                 ("username", username (enrollment_user ce))]);
      Log INFO "Refund successfully opened for user [%s], course [%s]: %r"
        [ArgInt (id (enrollment_user ce)); ArgStr (enrollment_course_id ce);
         ArgIds ids] None]).

(** The same for [refund_entitlement]. *)
Definition entitlement_opened (env : collaborators) (ent : CourseEntitlement)
    (service_user : User) (client : api_client) (ids : list Z) (w : world)
    : world :=
  mkWorld (heap w)
    (trace w ++
     [Called (ServiceUserLookup (ECOMMERCE_SERVICE_WORKER_USERNAME (settings env)));
      Called (EcommerceApiClient service_user);
      Log INFO
        "Attempting to create a refund for user [%s], course entitlement [%s]..."
        [ArgStr (username (entitlement_user ent));
         ArgStr (entitlement_uuid ent)] None;
      Called (RefundsPost client
                [("order_number", entitlement_order_number ent);
                 ("username", username (entitlement_user ent));
                 ("entitlement_uuid", entitlement_uuid ent)]);
      Log INFO
        "Refund successfully opened for user [%s], course entitlement [%s]: %r"
        [ArgStr (username (entitlement_user ent));
         ArgStr (entitlement_uuid ent); ArgIds ids] None]).

Definition themed_refusal : exn :=
  NotImplementedError
    "Unable to send refund processing emails to support teams.".

(** The record written instead of a notification. *)
Definition is_suppression_record (ev : event) : bool :=
  match ev with
  | Log INFO fmt _ _ =>
      String.prefix "Skipping refund email notification for non-verified mode"
        fmt
  | _ => false
  end.

Definition is_notification_attempt (ev : event) : bool :=
  match ev with
  | Called IsRequestInThemedSite => true
  | _ => false
  end.

(** The gates evaluated before the [try] statement of a receiver answer. *)
Definition gates_answer (env : collaborators) : Prop :=
  (forall h, exists b, is_commerce_service_configured env h = Normal b)
  /\ (forall ce h, exists b, refundable env ce h = Normal b)
  /\ (forall ent h, exists b, is_entitlement_refundable env ent h = Normal b).

(** The collaborators called inside the [try] statement of a receiver and
    outside the bare [except:] clauses of [_process_refund] raise only
    exceptions that satisfy [Q]. *)
Definition collaborators_raise (Q : exn -> bool) (env : collaborators)
    : Prop :=
  (forall h e, get_current_request env h = Raised e -> Q e = true)
  /\ (forall name h e, User_objects_get env name h = Raised e -> Q e = true)
  /\ (forall u h e, ecommerce_api_client env u h = Raised e -> Q e = true)
  /\ (forall c p h e, refunds_post env c p h = Raised e -> Q e = true)
  /\ (forall h e, CommerceConfiguration_current env h = Raised e ->
                  Q e = true).

(** They raise nothing but subclasses of [Exception]. *)
Definition raise_Exceptions (env : collaborators) : Prop :=
  collaborators_raise isinstance_Exception env.

(** [str(exc)] returns. *)
Definition str_succeeds (e : exn) : bool :=
  match py_str_exn e with
  | Normal _ => true
  | Raised _ => false
  end.

(** The exceptions they raise can be turned into a byte string. *)
Definition printable_messages (env : collaborators) : Prop :=
  collaborators_raise str_succeeds env.

Definition unexpected_order_failure (ce : CourseEnrollment) (e : exn) : event :=
  Log ERROR
    "Unexpected exception while attempting to initiate refund for user [%s], course [%s]"
    [ArgInt (id (enrollment_user ce)); ArgStr (enrollment_course_id ce)]
    (Some e).

Definition unexpected_entitlement_failure (ent : CourseEntitlement) (e : exn)
    (message : string) : event :=
  Log ERROR
    ("Unexpected exception while attempting to initiate refund for user [%s], "
     +:+ "course entitlement [%s] message: [%s]")
    [ArgInt (id (entitlement_user ent)); ArgStr (entitlement_uuid ent);
     ArgStr message]
    (Some e).

(** The world in which the [try] statement of a receiver starts: both
    gates have been asked. *)
Definition past_order_gate (ce : CourseEnrollment) (w : world) : world :=
  emit (Called (Refundable ce)) (emit (Called IsCommerceServiceConfigured) w).

Definition past_entitlement_gate (ent : CourseEntitlement) (w : world)
    : world :=
  emit (Called (IsEntitlementRefundable ent))
    (emit (Called IsCommerceServiceConfigured) w).

(** The commerce service is configured and the product is refundable. *)
Definition order_gate_open (env : collaborators) (ce : CourseEnrollment)
    (w : world) : Prop :=
  is_commerce_service_configured env (trace w) = Normal true
  /\ refundable env ce (trace (emit (Called IsCommerceServiceConfigured) w))
     = Normal true.

Definition entitlement_gate_open (env : collaborators)
    (ent : CourseEntitlement) (w : world) : Prop :=
  is_commerce_service_configured env (trace w) = Normal true
  /\ is_entitlement_refundable env ent
       (trace (emit (Called IsCommerceServiceConfigured) w))
     = Normal true.

(** The value of [getattr(request, 'user', None)]. *)
Definition user_of (request : option http_request) : option request_user :=
  match request with
  | None => None
  | Some r => request_user_attr r
  end.

Definition any_event (ev : event) : bool := true.

(** [starts_with c m]: whatever happens, the first thing [m] does to the
    trace is to record the call [c]. *)
Definition starts_with {A} (c : call) (m : Py A) : Prop :=
  forall w, exists seg, trace (m w).2 = trace w ++ Called c :: seg.

(** What the receivers log when the orchestration raises. *)
Definition log_order_failure (ce : CourseEnrollment) (e : exn) : Py unit :=
  fun w => (Normal tt, emit (unexpected_order_failure ce e) w).

Definition log_entitlement_failure (ent : CourseEntitlement) (e : exn)
    : Py unit :=
  message <- lift (py_str_exn e) ;;
  fun w => (Normal tt, emit (unexpected_entitlement_failure ent e message) w).

(** The condition of [handle_refund_entitlement]: a user was resolved and
    it is the owner of the entitlement. *)
Definition owner_acts (ent : CourseEntitlement)
    (requester : option request_user) : bool :=
  match requester with
  | Some r => user_eq (entitlement_user ent) r
  | None => false
  end.

(** The three settings [create_zendesk_ticket] requires. *)
Definition zendesk_configured (s : Settings) : bool :=
  truthy (ZENDESK_URL s) && truthy (ZENDESK_USER s)
  && truthy (ZENDESK_API_KEY s).

(** The record [create_zendesk_ticket] writes for an answer to its POST. *)
Definition ticket_record (answer : outcome response) : event :=
  match answer with
  | Normal r =>
      if Z.eqb (status_code r) 201
      then Log DEBUG "Successfully created ticket." [] None
      else Log ERROR "Failed to create ticket. Status: [%d], Body: [%s]"
             [ArgInt (status_code r); ArgStr (content r)] None
  | Raised e => Log ERROR "Failed to create ticket." [] (Some e)
  end.

(** ** Vocabulary of the further properties *)




(** The calls [refund_seat] and [refund_entitlement] make outside any
    [try] statement. *)
Definition is_setup_call (c : call) : bool :=
  match c with
  | ServiceUserLookup _ => true
  | EcommerceApiClient _ => true
  | RefundsPost _ _ => true
  | CommerceConfigurationCurrent => true
  | _ => false
  end.

(** The call [c], made after [history], was answered by raising [e]. *)
Definition answer_raises (env : collaborators) (c : call)
    (history : list event) (e : exn) : Prop :=
  match c with
  | ServiceUserLookup name => User_objects_get env name history = Raised e
  | EcommerceApiClient u => ecommerce_api_client env u history = Raised e
  | RefundsPost client payload =>
      refunds_post env client payload history = Raised e
  | CommerceConfigurationCurrent =>
      CommerceConfiguration_current env history = Raised e
  | _ => False
  end.

Definition is_refund_post (ev : event) : bool :=
  match ev with
  | Called (RefundsPost _ _) => true
  | _ => false
  end.

Definition is_raised {A} (o : outcome A) : bool :=
  match o with
  | Raised _ => true
  | Normal _ => false
  end.

(** What the loop of [_process_refund] adds to the trace for a refund ID
    whose approval goes through. *)
Definition approved (client : api_client) (refund_id : Z) : list event :=
  [approval_of client refund_id;
   Log INFO "Refund [%d] successfully approved." [ArgInt refund_id] None].

(** The log records of the approval loop, in order: the refund ID and
    whether it was approved. *)
Definition approval_records (seg : list event) : list (Z * bool) :=
  flat_map
    (fun ev =>
       match ev with
       | Log INFO fmt [ArgInt refund_id] None =>
           if String.eqb fmt "Refund [%d] successfully approved."
           then [(refund_id, true)] else []
       | Log ERROR fmt [ArgInt refund_id] (Some _) =>
           if String.eqb fmt "Failed to automatically approve refund [%d]!"
           then [(refund_id, false)] else []
       | _ => []
       end) seg.

(** The Zendesk settings are present: URL, user and API key. *)
Definition zendesk_settings (env : collaborators) (url user key : string)
    : Prop :=
  ZENDESK_URL (settings env) = Some url
  /\ ZENDESK_USER (settings env) = Some user
  /\ ZENDESK_API_KEY (settings env) = Some key
  /\ url <> "" /\ user <> "" /\ key <> "".

(** The elements of the list passed as [tags], none for [None]. *)
Definition tags_hold (w : world) (tags : option loc) (given : list string)
    : Prop :=
  match tags with
  | None => given = []
  | Some l => heap w !! l = Some given
  end.

(** The ticket as [create_zendesk_ticket] builds it. *)
Definition ticket_json (name mail subject body : string)
    (tag_values : list string) : json :=
  JObj [("ticket",
         JObj [("requester", JObj [("name", JStr name); ("email", JStr mail)]);
               ("subject", JStr subject);
               ("comment", JObj [("body", JStr body)]);
               ("tags", JList (map JStr tag_values))])].

(** The request that files a ticket with payload [data]. *)
Definition ticket_post (env : collaborators) (url user key data : string)
    : event :=
  Called (RequestsPost (urljoin env url "/api/v2/tickets.json") data
            (user +:+ "/token", key) [("content-type", "application/json")]).

(** The message of the ticket before translation. *)
Definition refund_message_template : string :=
  "A refund request has been initiated for {username} ({email}). "
  +:+ "To process this request, please visit the link(s) below.".

(** The collaborators of [send_refund_notification] answer: the site is
    not themed, the translated message formats to [msg], the public root
    of the commerce service is [root] and the name in the profile of the
    student is [name]. *)
Definition notification_inputs (env : collaborators) (student : User)
    (msg root name : string) : Prop :=
  (forall h, is_request_in_themed_site env h = Normal false)
  /\ format_kw env (ugettext env refund_message_template)
       [("username", username student); ("email", email student)]
     = Normal msg
  /\ (forall h,
         configuration_helpers_get_value env "ECOMMERCE_PUBLIC_URL_ROOT"
           (ECOMMERCE_PUBLIC_URL_ROOT (settings env)) h
         = Normal root)
  /\ (forall h, profile_name env student h = Normal name).

(** The body of the ticket: the message, an empty line, one review link
    per refund ID. *)
Definition notification_body (env : collaborators) (msg root : string)
    (refund_ids : list Z) : string :=
  msg +:+ newline +:+ newline
  +:+ join newline
        (map (fun refund_id =>
                urljoin env root
                  ("/dashboard/refunds/" +:+ str_int refund_id +:+ "/"))
             refund_ids).

(** Counting requests in a stretch of the trace. *)
Definition count_events (P : event -> bool) (seg : list event) : nat :=
  length (List.filter P seg).

(** [within opens tickets m]: running [m] only appends to the trace, at
    most [opens] requests to open a refund and at most [tickets] ticket
    posts. *)
Definition within {A} (opens tickets : nat) (m : Py A) : Prop :=
  forall w, exists seg,
    trace (m w).2 = trace w ++ seg
    /\ (count_events is_refund_post seg <= opens)%nat
    /\ (count_events is_ticket_post seg <= tickets)%nat.

(** Neither a request to open a refund nor a ticket post. *)
Definition quiet (ev : event) : bool :=
  negb (is_refund_post ev || is_ticket_post ev).

(** Every request to open a refund carries [payload]. *)
Definition opens_for (payload : refund_request) (ev : event) : bool :=
  match ev with
  | Called (RefundsPost _ p) => bool_decide (p = payload)
  | _ => true
  end.

(** What is asked of the commerce service for an enrollment and for an
    entitlement. *)
Definition seat_refund_request (ce : CourseEnrollment) : refund_request :=
  [("course_id", enrollment_course_id ce);
   ("username", username (enrollment_user ce))].

Definition entitlement_refund_request (ent : CourseEntitlement)
    : refund_request :=
  [("order_number", entitlement_order_number ent);
   ("username", username (entitlement_user ent));
   ("entitlement_uuid", entitlement_uuid ent)].

(** * Concrete scenarios *)

Module Scenario.

Definition alice : User := mkUser 17 "alice" "alice@example.com".
Definition bob : User := mkUser 23 "bob" "bob@example.com".
Definition worker : User := mkUser 1 "ecommerce_worker" "worker@example.com".

Definition seat (mode : string) : CourseEnrollment :=
  mkEnrollment alice "course-v1:edX+DemoX+Demo" mode.

Definition entitlement (mode : string) : CourseEntitlement :=
  mkEntitlement alice "6f1b5e0c" "EDX-100017" mode.

Definition with_zendesk : Settings :=
  mkSettings (Some "https://support.example.com") (Some "support@example.com")
    (Some "secret") "https://ecommerce.example.com" "ecommerce_worker".

Definition without_zendesk : Settings :=
  mkSettings None None None "https://ecommerce.example.com" "ecommerce_worker".

Definition start : world := mkWorld ∅ [].

(** A deployment described by what its collaborators answer. *)
Record answers : Type := mkAnswers {
  site_settings : Settings;
  configured : outcome bool;
  eligible : outcome bool;
  request : outcome (option http_request);
  automatic : outcome bool;
  opened : outcome (list Z);
  approve : Z -> outcome unit;
  themed : outcome bool;
  posted : outcome response
}.

Definition env_of (a : answers) : collaborators :=
  {| settings := site_settings a;
     ugettext := fun s => s;
     urljoin := fun base path => base +:+ path;
     json_dumps := fun _ => "{}";
     format_kw := fun template _ => Normal template;
     is_commerce_service_configured := fun _ => configured a;
     refundable := fun _ _ => eligible a;
     is_entitlement_refundable := fun _ _ => eligible a;
     get_current_request := fun _ => request a;
     CommerceConfiguration_current := fun _ => automatic a;
     User_objects_get := fun _ _ => Normal worker;
     ecommerce_api_client := fun u _ => Normal (mkClient u);
     refunds_post := fun _ _ _ => opened a;
     refunds_process_put := fun _ refund_id _ _ => approve a refund_id;
     is_request_in_themed_site := fun _ => themed a;
     configuration_helpers_get_value := fun _ dflt _ => Normal dflt;
     profile_name := fun _ _ => Normal "Alice A.";
     requests_post := fun _ _ _ _ _ => posted a |}.

(** Everything works: the learner acts for herself, one refund is opened
    and approved automatically. *)
Definition smooth : answers :=
  {| site_settings := with_zendesk;
     configured := Normal true;
     eligible := Normal true;
     request := Normal (Some (mkRequest (Some (Authenticated alice))));
     automatic := Normal true;
     opened := Normal [501];
     approve := fun _ => Normal tt;
     themed := Normal false;
     posted := Normal (mkResponse 201 "") |}.

(** Three refunds are opened; the approval of the second one times out. *)
Definition second_of_three_fails : answers :=
  {| site_settings := with_zendesk;
     configured := Normal true;
     eligible := Normal true;
     request := Normal (Some (mkRequest (Some (Authenticated alice))));
     automatic := Normal true;
     opened := Normal [501; 502; 503];
     approve := fun refund_id =>
                  if Z.eqb refund_id 502
                  then Raised (ExceptionSubclass "Timeout" (Bytes "read timed out"))
                  else Normal tt;
     themed := Normal false;
     posted := Normal (mkResponse 201 "") |}.

(** Automatic approval is switched off. *)
Definition manual_approval : answers :=
  {| site_settings := with_zendesk;
     configured := Normal true;
     eligible := Normal true;
     request := Normal (Some (mkRequest (Some (Authenticated alice))));
     automatic := Normal false;
     opened := Normal [501];
     approve := fun _ => Normal tt;
     themed := Normal false;
     posted := Normal (mkResponse 201 "") |}.

(** Manual approval on a themed site: the notification is refused. *)
Definition themed_site : answers :=
  {| site_settings := with_zendesk;
     configured := Normal true;
     eligible := Normal true;
     request := Normal (Some (mkRequest (Some (Authenticated alice))));
     automatic := Normal false;
     opened := Normal [501];
     approve := fun _ => Normal tt;
     themed := Normal true;
     posted := Normal (mkResponse 201 "") |}.

(** The database is down when the eligibility of the product is checked. *)
Definition eligibility_check_breaks : answers :=
  {| site_settings := with_zendesk;
     configured := Normal true;
     eligible := Raised (ExceptionSubclass "OperationalError" (Bytes "server has gone away"));
     request := Normal (Some (mkRequest (Some (Authenticated alice))));
     automatic := Normal true;
     opened := Normal [501];
     approve := fun _ => Normal tt;
     themed := Normal false;
     posted := Normal (mkResponse 201 "") |}.

(** The commerce service cannot be reached when the refund is opened. *)
Definition gateway_down : answers :=
  {| site_settings := with_zendesk;
     configured := Normal true;
     eligible := Normal true;
     request := Normal (Some (mkRequest (Some (Authenticated alice))));
     automatic := Normal true;
     opened := Raised (ExceptionSubclass "Timeout" (Bytes "connect timed out"));
     approve := fun _ => Normal tt;
     themed := Normal false;
     posted := Normal (mkResponse 201 "") |}.


(** Somebody else, here a member of the support staff, acts on the
    learner's product. *)
Definition acted_by_staff : answers :=
  {| site_settings := with_zendesk;
     configured := Normal true;
     eligible := Normal true;
     request := Normal (Some (mkRequest (Some (Authenticated bob))));
     automatic := Normal true;
     opened := Normal [501];
     approve := fun _ => Normal tt;
     themed := Normal false;
     posted := Normal (mkResponse 201 "") |}.

(** No request is being served: a management command or a task. *)
Definition no_request : answers :=
  {| site_settings := with_zendesk;
     configured := Normal true;
     eligible := Normal true;
     request := Normal None;
     automatic := Normal true;
     opened := Normal [501];
     approve := fun _ => Normal tt;
     themed := Normal false;
     posted := Normal (mkResponse 201 "") |}.

(** The request comes from the commerce service itself, unauthenticated. *)
Definition anonymous_request : answers :=
  {| site_settings := with_zendesk;
     configured := Normal true;
     eligible := Normal true;
     request := Normal (Some (mkRequest (Some AnonymousUser)));
     automatic := Normal true;
     opened := Normal [501];
     approve := fun _ => Normal tt;
     themed := Normal false;
     posted := Normal (mkResponse 201 "") |}.

(** The ticketing system cannot be reached. *)
Definition ticketing_down : answers :=
  {| site_settings := with_zendesk;
     configured := Normal true;
     eligible := Normal true;
     request := Normal (Some (mkRequest (Some (Authenticated alice))));
     automatic := Normal false;
     opened := Normal [501];
     approve := fun _ => Normal tt;
     themed := Normal false;
     posted := Raised (ExceptionSubclass "ConnectionError" (Bytes "connection refused")) |}.


(** The worker is interrupted while the refund is being opened. *)
Definition interrupted : answers :=
  {| site_settings := with_zendesk;
     configured := Normal true;
     eligible := Normal true;
     request := Normal (Some (mkRequest (Some (Authenticated alice))));
     automatic := Normal true;
     opened := Raised (BaseExceptionOnly "KeyboardInterrupt" (Bytes ""));
     approve := fun _ => Normal tt;
     themed := Normal false;
     posted := Normal (mkResponse 201 "") |}.

(** A message with a character outside ASCII: "Requête invalide". *)
Definition french_message : string :=
  "Requ" +:+ String (ascii_of_nat 234) "te invalide".

(** The commerce service refuses the request, and the client reports it
    with a unicode message that is not ASCII. *)
Definition refused_in_french : answers :=
  {| site_settings := with_zendesk;
     configured := Normal true;
     eligible := Normal true;
     request := Normal (Some (mkRequest (Some (Authenticated alice))));
     automatic := Normal true;
     opened := Raised (ExceptionSubclass "HttpClientError"
                         (Unicode french_message));
     approve := fun _ => Normal tt;
     themed := Normal false;
     posted := Normal (mkResponse 201 "") |}.

(** The request cache fails when the current request is looked up. *)
Definition request_lookup_breaks : answers :=
  {| site_settings := with_zendesk;
     configured := Normal true;
     eligible := Normal true;
     request := Raised (ExceptionSubclass "RuntimeError"
                          (Bytes "request cache unavailable"));
     automatic := Normal true;
     opened := Normal [501];
     approve := fun _ => Normal tt;
     themed := Normal false;
     posted := Normal (mkResponse 201 "") |}.

(** A caller of [create_zendesk_ticket] that keeps its list of tags at
    location 0. *)
Definition with_tags (tags : list string) : world :=
  mkWorld {[ 0%nat := tags ]} [].

End Scenario.

(** * Reasoning about [Py] programs *)

Lemma bind_eq {A B} (m : Py A) (k : A -> Py B) w :
  bind m k w =
  match m w with
  | (Normal a, w') => k a w'
  | (Raised e, w') => (Raised e, w')
  end.
Proof. reflexivity. Qed.

Lemma bind_Normal {A B} (m : Py A) (k : A -> Py B) w a w' :
  m w = (Normal a, w') -> bind m k w = k a w'.
Proof. intros H. unfold bind. now rewrite H. Qed.

Lemma bind_Raised {A B} (m : Py A) (k : A -> Py B) w e w' :
  m w = (Raised e, w') -> bind m k w = (Raised e, w').
Proof. intros H. unfold bind. now rewrite H. Qed.

Lemma try_except_Normal {A} (body : Py A) catches handler w a w' :
  body w = (Normal a, w') ->
  try_except body catches handler w = (Normal a, w').
Proof. intros H. unfold try_except. now rewrite H. Qed.

Lemma try_except_caught {A} (body : Py A) catches handler w e w' :
  body w = (Raised e, w') -> catches e = true ->
  try_except body catches handler w = handler e w'.
Proof. intros H Hc. unfold try_except. now rewrite H, Hc. Qed.

Lemma trace_emit ev w : trace (emit ev w) = trace w ++ [ev].
Proof. reflexivity. Qed.

Lemma heap_emit ev w : heap (emit ev w) = heap w.
Proof. reflexivity. Qed.

(** ** What a program may add to the trace *)

Lemma extends_refl P w : extends_with P w w.
Proof. exists []. split; [now rewrite app_nil_r | reflexivity]. Qed.

Lemma extends_trans P w1 w2 w3 :
  extends_with P w1 w2 -> extends_with P w2 w3 -> extends_with P w1 w3.
Proof.
  intros (s1 & E1 & F1) (s2 & E2 & F2). exists (s1 ++ s2). split.
  - now rewrite E2, E1, app_assoc.
  - rewrite forallb_app. now rewrite F1, F2.
Qed.

Lemma extends_emit P ev w : P ev = true -> extends_with P w (emit ev w).
Proof.
  intros H. exists [ev]. split; [reflexivity | simpl; now rewrite H].
Qed.

Section Emits.

Variable P : event -> bool.

Lemma emits_ret {A} (a : A) : emits P (ret a).
Proof. intros w. apply extends_refl. Qed.

Lemma emits_raise {A} e : emits P (@raise A e).
Proof. intros w. apply extends_refl. Qed.

Lemma emits_lift {A} (o : outcome A) : emits P (lift o).
Proof. intros w. apply extends_refl. Qed.

Lemma emits_bind {A B} (m : Py A) (k : A -> Py B) :
  emits P m -> (forall a, emits P (k a)) -> emits P (bind m k).
Proof.
  intros Hm Hk w. rewrite bind_eq. specialize (Hm w).
  destruct (m w) as [[a | e] w']; simpl in *; [| exact Hm].
  eapply extends_trans; [exact Hm | apply Hk].
Qed.

Lemma emits_try_except {A} (body : Py A) catches handler :
  emits P body -> (forall e, emits P (handler e)) ->
  emits P (try_except body catches handler).
Proof.
  intros Hb Hh w. unfold try_except. specialize (Hb w).
  destruct (body w) as [[a | e] w']; simpl in *; [exact Hb |].
  destruct (catches e); [| exact Hb].
  eapply extends_trans; [exact Hb | apply Hh].
Qed.

Lemma emits_invoke {A} c (answer : list event -> outcome A) :
  P (Called c) = true -> emits P (invoke c answer).
Proof. intros H w. simpl. now apply extends_emit. Qed.

Lemma emits_log lvl fmt args exc :
  P (Log lvl fmt args exc) = true -> emits P (log lvl fmt args exc).
Proof. intros H w. simpl. now apply extends_emit. Qed.

Lemma emits_new_list xs : emits P (new_list xs).
Proof. intros w. simpl. exists []. simpl. now rewrite app_nil_r. Qed.

Lemma emits_read_list l : emits P (read_list l).
Proof. intros w. apply extends_refl. Qed.

Lemma emits_list_append l x : emits P (list_append l x).
Proof. intros w. simpl. exists []. simpl. now rewrite app_nil_r. Qed.

End Emits.

(** Decomposes a goal [emits P m] along the structure of [m]; what is left
    are the side conditions [P ev = true] that do not compute. *)
Ltac emits_step :=
  match goal with
  | |- emits _ (bind _ _) => apply emits_bind; [| intros ?]
  | |- emits _ (try_except _ _ _) => apply emits_try_except; [| intros ?]
  | |- emits _ (ret _) => apply emits_ret
  | |- emits _ (raise _) => apply emits_raise
  | |- emits _ (lift _) => apply emits_lift
  | |- emits _ (invoke _ _) => apply emits_invoke; try reflexivity
  | |- emits _ (log _ _ _ _) => apply emits_log; try reflexivity
  | |- emits _ (log_info _ _) => apply emits_log; try reflexivity
  | |- emits _ (log_debug _ _) => apply emits_log; try reflexivity
  | |- emits _ (log_error _ _) => apply emits_log; try reflexivity
  | |- emits _ (log_exception _ _ _) => apply emits_log; try reflexivity
  | |- emits _ (new_list _) => apply emits_new_list
  | |- emits _ (read_list _) => apply emits_read_list
  | |- emits _ (list_append _ _) => apply emits_list_append
  | |- emits _ (if ?b then _ else _) => destruct b
  | |- emits _ (match ?x with _ => _ end) => destruct x
  end.

Ltac emits_auto := repeat emits_step.

(** ** Which exceptions a program may raise *)

Lemma never_raises_only {A} Q (m : Py A) : never_raises m -> raises_only Q m.
Proof.
  intros H w e w' E. destruct (H w) as (a & w1 & E1). congruence.
Qed.

Section RaisesOnly.

Variable Q : exn -> bool.

Lemma raises_only_ret {A} (a : A) : raises_only Q (ret a).
Proof. intros w e w' H. discriminate. Qed.

Lemma raises_only_raise {A} e : Q e = true -> raises_only Q (@raise A e).
Proof. intros H w e' w' E. injection E as <- _. exact H. Qed.

Lemma raises_only_bind {A B} (m : Py A) (k : A -> Py B) :
  raises_only Q m -> (forall a, raises_only Q (k a)) ->
  raises_only Q (bind m k).
Proof.
  intros Hm Hk w e w'. rewrite bind_eq.
  destruct (m w) as [[a | e0] w0] eqn:E.
  - apply Hk.
  - intros H. injection H as <- <-. eapply Hm, E.
Qed.

Lemma raises_only_invoke {A} c (answer : list event -> outcome A) :
  (forall h e, answer h = Raised e -> Q e = true) ->
  raises_only Q (invoke c answer).
Proof.
  intros H w e w' E. unfold invoke in E. injection E as E _. eapply H, E.
Qed.

Lemma raises_only_log lvl fmt args exc : raises_only Q (log lvl fmt args exc).
Proof. intros w e w' H. discriminate. Qed.

(** A clause that catches everything and whose handler does not raise. *)
Lemma raises_only_try_all {A} (body : Py A) handler :
  (forall e, raises_only Q (handler e)) ->
  raises_only Q (try_except body except_all handler).
Proof.
  intros Hh w e w'. unfold try_except, except_all.
  destruct (body w) as [[a | e0] w0]; [discriminate | apply Hh].
Qed.

End RaisesOnly.

(** ** The trace of the notification path *)

Section NotificationTrace.

Variable env : collaborators.
Variable P : event -> bool.
Hypothesis P_other : forall ev, is_commerce_request ev = false -> P ev = true.

Ltac side := try (apply P_other; reflexivity).

Lemma emits_getattr_course_id p : emits P (getattr_course_id p).
Proof. destruct p; simpl; emits_auto. Qed.

Lemma emits_getattr_uuid p : emits P (getattr_uuid p).
Proof. destruct p; simpl; emits_auto. Qed.

Lemma emits_create_zendesk_ticket name mail subject body tags :
  emits P (create_zendesk_ticket env name mail subject body tags).
Proof. unfold create_zendesk_ticket. cbv zeta. emits_auto; side. Qed.

Lemma emits_generate_refund_notification_body student refund_ids :
  emits P (generate_refund_notification_body env student refund_ids).
Proof.
  unfold generate_refund_notification_body. cbv zeta. emits_auto; side.
Qed.

Lemma emits_send_refund_notification p refund_ids :
  emits P (send_refund_notification env p refund_ids).
Proof.
  unfold send_refund_notification. cbv zeta. emits_auto; side.
  - apply emits_generate_refund_notification_body.
  - apply emits_create_zendesk_ticket.
Qed.

Lemma emits_notify_or_skip p is_entitlement needs :
  emits P (notify_or_skip env p is_entitlement needs).
Proof.
  unfold notify_or_skip. cbv zeta.
  destruct (nonempty needs); [| apply emits_ret].
  destruct (negb _).
  - apply emits_bind; [apply emits_getattr_course_id | intros cid].
    apply emits_bind; [| intros named; apply emits_log; side].
    destruct is_entitlement; [| apply emits_ret].
    apply emits_bind; [apply emits_getattr_uuid | intros u; apply emits_ret].
  - apply emits_try_except; [apply emits_send_refund_notification |].
    intros e. apply emits_log; side.
Qed.

End NotificationTrace.

(** ** What the orchestration may raise *)

Lemma raises_only_and {A} Q1 Q2 (m : Py A) :
  raises_only Q1 m -> raises_only Q2 m ->
  raises_only (fun e => Q1 e && Q2 e) m.
Proof.
  intros H1 H2 w e w' Run. now rewrite (H1 _ _ _ Run), (H2 _ _ _ Run).
Qed.

Section OrchestrationRaises.

Variable env : collaborators.
Variable Q : exn -> bool.
Hypothesis Q_attribute : forall c a, Q (AttributeError c a) = true.
Hypothesis Only : collaborators_raise Q env.

Ltac raises_step :=
  match goal with
  | |- raises_only _ (bind _ _) => apply raises_only_bind; [| intros ?]
  | |- raises_only _ (ret _) => apply raises_only_ret
  | |- raises_only _ (raise _) => apply raises_only_raise; apply Q_attribute
  | |- raises_only _ (log _ _ _ _) => apply raises_only_log
  | |- raises_only _ (log_info _ _) => apply raises_only_log
  | |- raises_only _ (log_exception _ _ _) => apply raises_only_log
  | |- raises_only _ (try_except _ except_all _) =>
      apply raises_only_try_all; intros ?; cbv beta
  | |- raises_only _ (if ?b then _ else _) => destruct b
  end.

Lemma raises_approve_each client refund_ids :
  forall acc, raises_only Q (approve_each env client refund_ids acc).
Proof.
  induction refund_ids as [| refund_id rest IH]; intros acc; simpl.
  - apply raises_only_ret.
  - apply raises_only_bind; [| intros acc'; apply IH].
    repeat raises_step.
Qed.

Lemma raises_notify_or_skip product is_entitlement needs :
  raises_only Q (notify_or_skip env product is_entitlement needs).
Proof.
  unfold notify_or_skip. cbv zeta.
  destruct (nonempty needs); [| apply raises_only_ret].
  destruct (negb _); [| repeat raises_step].
  destruct product, is_entitlement; simpl; repeat raises_step.
Qed.

Lemma raises_process_refund refund_ids client product is_entitlement :
  raises_only Q (_process_refund env refund_ids client product is_entitlement).
Proof.
  destruct Only as (_ & _ & _ & _ & Config).
  unfold _process_refund.
  apply raises_only_bind; [apply raises_only_invoke, Config | intros flag].
  apply raises_only_bind; [| intros needs; apply raises_notify_or_skip].
  destruct flag; simpl; [apply raises_approve_each | apply raises_only_ret].
Qed.

Lemma raises_refund_seat ce : raises_only Q (refund_seat env ce).
Proof.
  destruct Only as (_ & Lookup & Client & Post & _).
  unfold refund_seat. cbv zeta.
  apply raises_only_bind; [apply raises_only_invoke, Lookup | intros su].
  apply raises_only_bind; [apply raises_only_invoke, Client | intros client].
  apply raises_only_bind; [apply raises_only_log | intros _].
  apply raises_only_bind; [apply raises_only_invoke, Post | intros ids].
  apply raises_only_bind; [| intros _; apply raises_only_ret].
  destruct (nonempty ids); [| apply raises_only_log].
  apply raises_only_bind; [apply raises_only_log | intros _].
  apply raises_process_refund.
Qed.

Lemma raises_refund_entitlement ent :
  raises_only Q (refund_entitlement env ent).
Proof.
  destruct Only as (_ & Lookup & Client & Post & _).
  unfold refund_entitlement. cbv zeta.
  apply raises_only_bind; [apply raises_only_invoke, Lookup | intros su].
  apply raises_only_bind; [apply raises_only_invoke, Client | intros client].
  apply raises_only_bind; [apply raises_only_log | intros _].
  apply raises_only_bind; [apply raises_only_invoke, Post | intros ids].
  apply raises_only_bind; [| intros _; apply raises_only_ret].
  destruct (nonempty ids); [| apply raises_only_log].
  apply raises_only_bind; [apply raises_only_log | intros _].
  apply raises_process_refund.
Qed.

Lemma raises_get_request_user : raises_only Q (get_request_user env).
Proof.
  destruct Only as (Request & _).
  unfold get_request_user.
  apply raises_only_bind; [apply raises_only_invoke, Request | intros r].
  apply raises_only_ret.
Qed.

End OrchestrationRaises.

(** A clause [except Exception] swallows what the body raises when all of
    it derives from [Exception] and the handler returns on it. *)
Lemma try_except_Exception_returns (Q : exn -> bool) (body : Py unit) handler :
  raises_only Q body ->
  (forall e, Q e = true -> isinstance_Exception e = true) ->
  (forall e w, Q e = true -> exists w', handler e w = (Normal tt, w')) ->
  forall w, exists w',
    try_except body except_Exception handler w = (Normal tt, w').
Proof.
  intros Hbody Hclass Hhandler w. unfold try_except.
  destruct (body w) as [[[] | e] w1] eqn:Run.
  - eauto.
  - unfold except_Exception. pose proof (Hbody _ _ _ Run) as He.
    rewrite (Hclass e He). now apply Hhandler.
Qed.

Lemma log_entitlement_failure_returns ent e w :
  str_succeeds e = true ->
  exists w', log_entitlement_failure ent e w = (Normal tt, w').
Proof.
  unfold str_succeeds, log_entitlement_failure. rewrite bind_eq. unfold lift.
  destruct (py_str_exn e) as [message | e']; [| discriminate].
  intros _. eexists. reflexivity.
Qed.

(** ** The orchestration starts with the service user lookup *)

Lemma emits_approve_each env P client refund_ids :
  (forall ev, P ev = true) ->
  forall acc, emits P (approve_each env client refund_ids acc).
Proof.
  intros All. induction refund_ids as [| refund_id rest IH]; intros acc; simpl.
  - apply emits_ret.
  - apply emits_bind; [| intros acc'; apply IH].
    apply emits_try_except; [| intros e]; emits_auto; apply All.
Qed.

Lemma emits_process_refund env refund_ids client product is_entitlement :
  emits any_event
    (_process_refund env refund_ids client product is_entitlement).
Proof.
  unfold _process_refund.
  apply emits_bind; [now apply emits_invoke | intros flag].
  apply emits_bind; [| intros needs; now apply emits_notify_or_skip].
  destruct flag; simpl; [now apply emits_approve_each | apply emits_ret].
Qed.

Lemma starts_with_invoke {A B} c (answer : list event -> outcome A)
    (k : A -> Py B) :
  (forall a, emits any_event (k a)) -> starts_with c (bind (invoke c answer) k).
Proof.
  intros Hk w. rewrite bind_eq. unfold invoke.
  destruct (answer (trace w)) as [a | e].
  - destruct (Hk a (emit (Called c) w)) as (seg & E & _).
    exists seg. rewrite E. simpl. now rewrite <- app_assoc.
  - exists []. reflexivity.
Qed.

Lemma starts_with_guarded {A} c (m : Py A) catches (handler : exn -> Py unit) :
  starts_with c m -> (forall e, emits any_event (handler e)) ->
  starts_with c (try_except (bind m (fun _ => ret tt)) catches handler).
Proof.
  intros Hm Hh w. unfold try_except. rewrite bind_eq.
  destruct (Hm w) as (seg & E).
  destruct (m w) as [[a | e] w1]; simpl in *.
  - eauto.
  - destruct (catches e); [| eauto].
    destruct (Hh e w1) as (more & E' & _).
    exists (seg ++ more). rewrite E', E. now rewrite <- app_assoc.
Qed.

Lemma emits_log_entitlement_failure ent e :
  emits any_event (log_entitlement_failure ent e).
Proof.
  unfold log_entitlement_failure.
  apply emits_bind; [apply emits_lift | intros message].
  intros w. now apply extends_emit.
Qed.

Lemma refund_seat_starts env ce :
  starts_with (ServiceUserLookup (ECOMMERCE_SERVICE_WORKER_USERNAME (settings env)))
    (refund_seat env ce).
Proof.
  unfold refund_seat. cbv zeta. apply starts_with_invoke. intros su.
  apply emits_bind; [now apply emits_invoke | intros client].
  apply emits_bind; [now apply emits_log | intros _].
  apply emits_bind; [now apply emits_invoke | intros ids].
  apply emits_bind; [| intros _; apply emits_ret].
  destruct (nonempty ids); [| now apply emits_log].
  apply emits_bind; [now apply emits_log | intros _].
  apply emits_process_refund.
Qed.

Lemma refund_entitlement_starts env ent :
  starts_with (ServiceUserLookup (ECOMMERCE_SERVICE_WORKER_USERNAME (settings env)))
    (refund_entitlement env ent).
Proof.
  unfold refund_entitlement. cbv zeta. apply starts_with_invoke. intros su.
  apply emits_bind; [now apply emits_invoke | intros client].
  apply emits_bind; [now apply emits_log | intros _].
  apply emits_bind; [now apply emits_invoke | intros ids].
  apply emits_bind; [| intros _; apply emits_ret].
  destruct (nonempty ids); [| now apply emits_log].
  apply emits_bind; [now apply emits_log | intros _].
  apply emits_process_refund.
Qed.

(** ** The object store *)

Lemma fresh_not_allocated (h : gmap loc (list string)) l ys :
  h !! l = Some ys -> fresh (dom h) <> l.
Proof.
  intros Hl E. apply (is_fresh (dom h)). rewrite E.
  apply elem_of_dom. now exists ys.
Qed.

Lemma insert_fresh_keeps (h : gmap loc (list string)) l ys v :
  h !! l = Some ys -> <[fresh (dom h) := v]> h !! l = Some ys.
Proof.
  intros Hl. rewrite lookup_insert_ne; [exact Hl |].
  now apply fresh_not_allocated with ys.
Qed.

Lemma insert_other_keeps (h : gmap loc (list string)) l ys k v :
  k <> l -> h !! l = Some ys -> <[k := v]> h !! l = Some ys.
Proof. intros Hk Hl. now rewrite lookup_insert_ne. Qed.

(** * The approval loop *)

Lemma approve_each_spec env client refund_ids :
  forall acc w,
  exists seg,
    approve_each env client refund_ids acc w
    = (Normal (acc ++ failed_approvals env (trace w) seg),
       mkWorld (heap w) (trace w ++ seg))
    /\ List.filter is_approval_call seg = map (approval_of client) refund_ids
    /\ logged_approval_failures seg = failed_approvals env (trace w) seg.
Proof.
  induction refund_ids as [| refund_id rest IH]; intros acc w.
  - exists []. simpl. rewrite !app_nil_r. destruct w; auto.
  - cbn [approve_each]. rewrite bind_eq. unfold try_except.
    rewrite bind_eq. unfold invoke at 1.
    destruct (refunds_process_put env client refund_id "approve_payment_only"
                (trace w)) as [[] | e] eqn:Put.
    + destruct (IH acc (emit (Log INFO "Refund [%d] successfully approved."
                                [ArgInt refund_id] None)
                          (emit (approval_of client refund_id) w)))
        as (seg & Run & Calls & Logs).
      exists (approval_of client refund_id
              :: Log INFO "Refund [%d] successfully approved."
                   [ArgInt refund_id] None :: seg).
      simpl in Run |- *. rewrite Put. simpl.
      repeat split; [| now rewrite Calls | exact Logs].
      unfold approval_of in Run. rewrite Run. do 2 f_equal.
      now rewrite <- !app_assoc.
    + destruct (IH (acc ++ [refund_id])
                  (emit (Log ERROR "Failed to automatically approve refund [%d]!"
                           [ArgInt refund_id] (Some e))
                     (emit (approval_of client refund_id) w)))
        as (seg & Run & Calls & Logs).
      exists (approval_of client refund_id
              :: Log ERROR "Failed to automatically approve refund [%d]!"
                   [ArgInt refund_id] (Some e) :: seg).
      simpl in Run |- *. rewrite Put. simpl.
      repeat split; [| now rewrite Calls | now rewrite Logs].
      unfold approval_of in Run. rewrite Run. f_equal.
      * now rewrite <- !app_assoc.
      * f_equal. now rewrite <- !app_assoc.
Qed.

(** C1. With automatic approval enabled, [_process_refund] requests the
    approval of every refund ID, one after the other in the order of the
    list; the IDs handed to the notification step are exactly those whose
    request raised, each of them is logged as a failure, and a failure does
    not stop the requests for the IDs that follow. *)
Theorem process_refund_approves_each_id env refund_ids client product
    is_entitlement w :
  CommerceConfiguration_current env (trace w) = Normal true ->
  let history := trace w ++ [Called CommerceConfigurationCurrent] in
  exists seg,
    _process_refund env refund_ids client product is_entitlement w
    = notify_or_skip env product is_entitlement
        (failed_approvals env history seg)
        (mkWorld (heap w) (history ++ seg))
    /\ List.filter is_approval_call seg = map (approval_of client) refund_ids
    /\ logged_approval_failures seg = failed_approvals env history seg.
Proof.
  intros Config history.
  destruct (approve_each_spec env client refund_ids []
              (emit (Called CommerceConfigurationCurrent) w))
    as (seg & Run & Calls & Logs).
  exists seg. split; [| split; assumption].
  unfold _process_refund. rewrite bind_eq. unfold invoke. rewrite Config.
  rewrite bind_eq. unfold requiring_approval. rewrite Run. reflexivity.
Qed.

Lemma process_refund_approves_each_id_witness :
  CommerceConfiguration_current
    (Scenario.env_of Scenario.second_of_three_fails) [] = Normal true
  /\ exists seg,
       _process_refund (Scenario.env_of Scenario.second_of_three_fails)
         [501; 502; 503] (mkClient Scenario.worker)
         (Enrollment (Scenario.seat "verified")) false Scenario.start
       = notify_or_skip (Scenario.env_of Scenario.second_of_three_fails)
           (Enrollment (Scenario.seat "verified")) false
           (failed_approvals (Scenario.env_of Scenario.second_of_three_fails)
              [Called CommerceConfigurationCurrent] seg)
           (mkWorld ∅ ([Called CommerceConfigurationCurrent] ++ seg))
       /\ List.filter is_approval_call seg
          = map (approval_of (mkClient Scenario.worker)) [501; 502; 503]
       /\ logged_approval_failures seg
          = failed_approvals (Scenario.env_of Scenario.second_of_three_fails)
              [Called CommerceConfigurationCurrent] seg.
Proof.
  split; [reflexivity |].
  apply (process_refund_approves_each_id
           (Scenario.env_of Scenario.second_of_three_fails) [501; 502; 503]
           (mkClient Scenario.worker) (Enrollment (Scenario.seat "verified"))
           false Scenario.start).
  reflexivity.
Defined.

(** One failure among three: only the second ID needs approval. *)
Example one_of_three_needs_approval :
  (requiring_approval (Scenario.env_of Scenario.second_of_three_fails) true
     (mkClient Scenario.worker) [501; 502; 503] Scenario.start).1
  = Normal [502].
Proof. reflexivity. Qed.

(** * Automatic approval switched off *)

(** C6. When [enable_automatic_refund_approval] is false, [_process_refund]
    requests no approval at all, and the whole list of opened refund IDs is
    what the notification step receives. *)
Theorem process_refund_without_automatic_approval env refund_ids client
    product is_entitlement w :
  CommerceConfiguration_current env (trace w) = Normal false ->
  _process_refund env refund_ids client product is_entitlement w
  = notify_or_skip env product is_entitlement refund_ids
      (emit (Called CommerceConfigurationCurrent) w)
  /\ extends_with no_approval w
       (_process_refund env refund_ids client product is_entitlement w).2.
Proof.
  intros Config.
  assert (Run : _process_refund env refund_ids client product is_entitlement w
                = notify_or_skip env product is_entitlement refund_ids
                    (emit (Called CommerceConfigurationCurrent) w)).
  { unfold _process_refund. rewrite bind_eq. unfold invoke. now rewrite Config. }
  split; [exact Run |]. rewrite Run.
  apply (extends_trans _ _ (emit (Called CommerceConfigurationCurrent) w)).
  - now apply extends_emit.
  - apply emits_notify_or_skip.
    intros ev Hev. destruct ev as [? ? ? ? | []]; cbn in *; congruence.
Qed.

Lemma process_refund_without_automatic_approval_witness :
  CommerceConfiguration_current (Scenario.env_of Scenario.manual_approval) []
  = Normal false
  /\ (_process_refund (Scenario.env_of Scenario.manual_approval) [501; 502]
        (mkClient Scenario.worker) (Enrollment (Scenario.seat "verified"))
        false Scenario.start
      = notify_or_skip (Scenario.env_of Scenario.manual_approval)
          (Enrollment (Scenario.seat "verified")) false [501; 502]
          (emit (Called CommerceConfigurationCurrent) Scenario.start)
      /\ extends_with no_approval Scenario.start
           (_process_refund (Scenario.env_of Scenario.manual_approval)
              [501; 502] (mkClient Scenario.worker)
              (Enrollment (Scenario.seat "verified")) false Scenario.start).2).
Proof.
  split; [reflexivity |].
  apply (process_refund_without_automatic_approval
           (Scenario.env_of Scenario.manual_approval) [501; 502]
           (mkClient Scenario.worker) (Enrollment (Scenario.seat "verified"))
           false Scenario.start).
  reflexivity.
Defined.

(** * Suppression for modes other than verified *)

(** When every refund was approved, the second half of [_process_refund]
    does nothing: no mode check, no log record, no notification. *)
Lemma notify_or_skip_nothing_to_approve env product is_entitlement w :
  notify_or_skip env product is_entitlement [] w = (Normal tt, w).
Proof. reflexivity. Qed.

(** For an enrollment in a mode other than verified the notification is
    replaced by one informational record. *)
Lemma enrollment_notification_suppressed env ce needs w :
  needs <> [] -> enrollment_mode ce <> "verified" ->
  notify_or_skip env (Enrollment ce) false needs w
  = (Normal tt,
     emit (Log INFO
             "Skipping refund email notification for non-verified mode for user [%s], course [%s], mode: [%s]"
             [ArgInt (id (enrollment_user ce));
              ArgStr (enrollment_course_id ce);
              ArgStr (enrollment_mode ce)] None) w).
Proof.
  intros Hneeds Hmode. unfold notify_or_skip.
  destruct needs; [congruence |]. simpl.
  apply String.eqb_neq in Hmode. now rewrite Hmode.
Qed.

(** For an entitlement the same branch reads [course_product.course_id]
    before it looks at [is_entitlement]; the read fails and nothing is
    logged. *)
Lemma entitlement_notification_not_suppressed env ent needs w :
  needs <> [] -> entitlement_mode ent <> "verified" ->
  notify_or_skip env (Entitlement ent) true needs w
  = (Raised (AttributeError "CourseEntitlement" "course_id"), w).
Proof.
  intros Hneeds Hmode. unfold notify_or_skip.
  destruct needs; [congruence |]. simpl.
  apply String.eqb_neq in Hmode. now rewrite Hmode.
Qed.

(** C2, at an entitlement in the professional mode with automatic approval
    switched off and one refund opened: the needs-approval list is not
    empty and the mode is not verified, yet [_process_refund] raises
    [AttributeError] instead of logging the suppression; the receiver logs
    an unexpected exception and the trace holds no suppression record. *)
Theorem entitlement_suppression_record_missing :
  let env := Scenario.env_of Scenario.manual_approval in
  let ent := Scenario.entitlement "professional" in
  _process_refund env [501] (mkClient Scenario.worker) (Entitlement ent) true
    Scenario.start
  = (Raised (AttributeError "CourseEntitlement" "course_id"),
     mkWorld ∅ [Called CommerceConfigurationCurrent])
  /\ (refund_entitlement env ent Scenario.start).1
     = Raised (AttributeError "CourseEntitlement" "course_id")
  /\ (handle_refund_entitlement env (Some ent) Scenario.start).1 = Normal tt
  /\ List.existsb is_suppression_record
       (trace (handle_refund_entitlement env (Some ent) Scenario.start).2)
     = false
  /\ last (trace (handle_refund_entitlement env (Some ent) Scenario.start).2)
     = Some (Log ERROR
               ("Unexpected exception while attempting to initiate refund for user [%s], "
                +:+ "course entitlement [%s] message: [%s]")
               [ArgInt 17; ArgStr "6f1b5e0c";
                ArgStr "'CourseEntitlement' object has no attribute 'course_id'"]
               (Some (AttributeError "CourseEntitlement" "course_id"))).
Proof. repeat split; vm_compute; reflexivity. Qed.

(** The same request for an enrollment in the honor mode is suppressed as
    intended. *)
Example enrollment_suppression_record_present :
  let env := Scenario.env_of Scenario.manual_approval in
  (refund_seat env (Scenario.seat "honor") Scenario.start).1 = Normal [501]
  /\ List.existsb is_suppression_record
       (trace (refund_seat env (Scenario.seat "honor") Scenario.start).2)
     = true
  /\ List.existsb is_notification_attempt
       (trace (refund_seat env (Scenario.seat "honor") Scenario.start).2)
     = false.
Proof. repeat split; vm_compute; reflexivity. Qed.

(** * Notification failures *)

Lemma notify_or_skip_verified env product is_entitlement needs w :
  product_mode product = "verified" -> needs <> [] ->
  notify_or_skip env product is_entitlement needs w
  = match send_refund_notification env product needs w with
    | (Normal _, w1) => (Normal tt, w1)
    | (Raised e, w1) => (Normal tt, emit (warning_not_sent e) w1)
    end.
Proof.
  intros Hmode Hneeds. unfold notify_or_skip.
  destruct needs as [| refund_id rest]; [congruence |].
  cbn [nonempty]. rewrite Hmode. cbn [String.eqb Ascii.eqb Bool.eqb negb].
  unfold try_except, except_all.
  destruct (send_refund_notification env product (refund_id :: rest) w)
    as [[[] | e] w1]; reflexivity.
Qed.

Lemma send_refund_notification_themed env product refund_ids w :
  is_request_in_themed_site env (trace w) = Normal true ->
  exists w1,
    send_refund_notification env product refund_ids w
    = (Raised (NotImplementedError
                 "Unable to send refund processing emails to support teams."),
       w1).
Proof.
  intros Themed. unfold send_refund_notification.
  rewrite bind_eq. cbn [new_list]. rewrite bind_eq. unfold invoke.
  cbn [trace]. rewrite Themed. eexists. reflexivity.
Qed.

Lemma process_refund_verified env refund_ids client product is_entitlement w :
  product_mode product = "verified" ->
  (exists flag, CommerceConfiguration_current env (trace w) = Normal flag) ->
  exists w', _process_refund env refund_ids client product is_entitlement w
             = (Normal tt, w').
Proof.
  intros Hmode [flag Config]. unfold _process_refund.
  rewrite bind_eq. unfold invoke. rewrite Config. rewrite bind_eq.
  assert (Approved : exists needs w1,
             requiring_approval env flag client refund_ids
               (emit (Called CommerceConfigurationCurrent) w)
             = (Normal needs, w1)).
  { destruct flag; simpl.
    - destruct (approve_each_spec env client refund_ids []
                  (emit (Called CommerceConfigurationCurrent) w))
        as (seg & Run & _).
      rewrite Run. eauto.
    - eauto. }
  destruct Approved as (needs & w1 & ->).
  destruct needs as [| refund_id rest]; [eexists; reflexivity |].
  rewrite notify_or_skip_verified by (assumption || discriminate).
  destruct (send_refund_notification env product (refund_id :: rest) w1)
    as [[[] | e] w2]; eexists; reflexivity.
Qed.

(** When the notification raises, [_process_refund] logs the warning and
    returns. *)
Lemma process_refund_warns env refund_ids client product is_entitlement w
    flag needs w1 e w2 :
  product_mode product = "verified" ->
  CommerceConfiguration_current env (trace w) = Normal flag ->
  requiring_approval env flag client refund_ids
    (emit (Called CommerceConfigurationCurrent) w) = (Normal needs, w1) ->
  needs <> [] ->
  send_refund_notification env product needs w1 = (Raised e, w2) ->
  _process_refund env refund_ids client product is_entitlement w
  = (Normal tt, emit (warning_not_sent e) w2).
Proof.
  intros Hmode Config Approvals Hneeds Sent. unfold _process_refund.
  rewrite bind_eq. unfold invoke. rewrite Config. rewrite bind_eq, Approvals.
  rewrite notify_or_skip_verified by assumption. now rewrite Sent.
Qed.

(** On a themed site with automatic approval switched off, the last thing
    [_process_refund] does is to log that the notification was refused. *)
Lemma process_refund_themed env refund_ids client product is_entitlement w :
  (forall h, CommerceConfiguration_current env h = Normal false) ->
  (forall h, is_request_in_themed_site env h = Normal true) ->
  product_mode product = "verified" -> refund_ids <> [] ->
  exists w',
    _process_refund env refund_ids client product is_entitlement w
    = (Normal tt, w')
    /\ last (trace w') = Some (warning_not_sent themed_refusal).
Proof.
  intros Manual Themed Hmode Hids.
  destruct (send_refund_notification_themed env product refund_ids
              (emit (Called CommerceConfigurationCurrent) w) (Themed _))
    as (w2 & Sent).
  exists (emit (warning_not_sent themed_refusal) w2). split.
  - apply (process_refund_warns env refund_ids client product is_entitlement
             w false refund_ids
             (emit (Called CommerceConfigurationCurrent) w));
      auto.
  - cbn [trace emit]. apply last_snoc.
Qed.

Lemma refund_seat_opened env client ids ce w :
  refunds_opened env client ids -> ids <> [] ->
  enrollment_mode ce = "verified" ->
  exists service_user,
    refund_seat env ce w
    = (Normal ids,
       (_process_refund env ids client (Enrollment ce) false
          (seat_opened env ce service_user client ids w)).2).
Proof.
  intros ((Lookup & Post) & Config) Hids Hmode.
  destruct (Lookup (trace w)) as (su & Found & Client). exists su.
  unfold refund_seat. cbv zeta.
  rewrite bind_eq. unfold invoke at 1. rewrite Found.
  rewrite bind_eq. unfold invoke at 1. rewrite Client.
  rewrite bind_eq. cbn [log_info log].
  rewrite bind_eq. unfold invoke at 1. rewrite Post.
  destruct ids as [| refund_id rest]; [congruence |]. cbn [nonempty].
  rewrite bind_eq. rewrite bind_eq. cbn [log_info log].
  assert (Same : emit
                   (Log INFO
                      "Refund successfully opened for user [%s], course [%s]: %r"
                      [ArgInt (id (enrollment_user ce));
                       ArgStr (enrollment_course_id ce);
                       ArgIds (refund_id :: rest)] None)
                   (emit
                      (Called
                         (RefundsPost client
                            [("course_id", enrollment_course_id ce);
                             ("username", username (enrollment_user ce))]))
                      (emit
                         (Log INFO
                            "Attempting to create a refund for user [%s], course [%s]..."
                            [ArgInt (id (enrollment_user ce));
                             ArgStr (enrollment_course_id ce)] None)
                         (emit (Called (EcommerceApiClient su))
                            (emit
                               (Called
                                  (ServiceUserLookup
                                     (ECOMMERCE_SERVICE_WORKER_USERNAME
                                        (settings env)))) w))))
                 = seat_opened env ce su client (refund_id :: rest) w).
  { unfold seat_opened, emit. cbn [heap trace]. f_equal.
    now rewrite <- !app_assoc. }
  rewrite Same.
  destruct (process_refund_verified env (refund_id :: rest) client
              (Enrollment ce) false
              (seat_opened env ce su client (refund_id :: rest) w)
              Hmode (Config _)) as (w' & ->).
  reflexivity.
Qed.

Lemma refund_entitlement_opened env client ids ent w :
  refunds_opened env client ids -> ids <> [] ->
  entitlement_mode ent = "verified" ->
  exists service_user,
    refund_entitlement env ent w
    = (Normal ids,
       (_process_refund env ids client (Entitlement ent) true
          (entitlement_opened env ent service_user client ids w)).2).
Proof.
  intros ((Lookup & Post) & Config) Hids Hmode.
  destruct (Lookup (trace w)) as (su & Found & Client). exists su.
  unfold refund_entitlement. cbv zeta.
  rewrite bind_eq. unfold invoke at 1. rewrite Found.
  rewrite bind_eq. unfold invoke at 1. rewrite Client.
  rewrite bind_eq. cbn [log_info log].
  rewrite bind_eq. unfold invoke at 1. rewrite Post.
  destruct ids as [| refund_id rest]; [congruence |]. cbn [nonempty].
  rewrite bind_eq. rewrite bind_eq. cbn [log_info log].
  assert (Same : emit
                   (Log INFO
                      "Refund successfully opened for user [%s], course entitlement [%s]: %r"
                      [ArgStr (username (entitlement_user ent));
                       ArgStr (entitlement_uuid ent);
                       ArgIds (refund_id :: rest)] None)
                   (emit
                      (Called
                         (RefundsPost client
                            [("order_number", entitlement_order_number ent);
                             ("username", username (entitlement_user ent));
                             ("entitlement_uuid", entitlement_uuid ent)]))
                      (emit
                         (Log INFO
                            "Attempting to create a refund for user [%s], course entitlement [%s]..."
                            [ArgStr (username (entitlement_user ent));
                             ArgStr (entitlement_uuid ent)] None)
                         (emit (Called (EcommerceApiClient su))
                            (emit
                               (Called
                                  (ServiceUserLookup
                                     (ECOMMERCE_SERVICE_WORKER_USERNAME
                                        (settings env)))) w))))
                 = entitlement_opened env ent su client (refund_id :: rest) w).
  { unfold entitlement_opened, emit. cbn [heap trace]. f_equal.
    now rewrite <- !app_assoc. }
  rewrite Same.
  destruct (process_refund_verified env (refund_id :: rest) client
              (Entitlement ent) true
              (entitlement_opened env ent su client (refund_id :: rest) w)
              Hmode (Config _)) as (w' & ->).
  reflexivity.
Qed.

(** C3. Whatever [send_refund_notification] raises, a [NotImplementedError]
    on a themed site included, [_process_refund] catches it, logs a warning
    and returns; [refund_seat] and [refund_entitlement] run
    [_process_refund] on the refunds they opened and return their IDs; on
    a themed site with automatic approval switched off the warning is the
    last record of their run. *)
Theorem notification_failure_not_propagated env client ids :
  refunds_opened env client ids -> ids <> [] ->
  (forall product is_entitlement needs w,
      product_mode product = "verified" -> needs <> [] ->
      (forall e w1,
          send_refund_notification env product needs w = (Raised e, w1) ->
          notify_or_skip env product is_entitlement needs w
          = (Normal tt, emit (warning_not_sent e) w1))
      /\ (is_request_in_themed_site env (trace w) = Normal true ->
          exists w1,
            send_refund_notification env product needs w
            = (Raised themed_refusal, w1)))
  /\ (forall product is_entitlement refund_ids w flag needs w1 e w2,
        product_mode product = "verified" ->
        CommerceConfiguration_current env (trace w) = Normal flag ->
        requiring_approval env flag client refund_ids
          (emit (Called CommerceConfigurationCurrent) w) = (Normal needs, w1) ->
        needs <> [] ->
        send_refund_notification env product needs w1 = (Raised e, w2) ->
        _process_refund env refund_ids client product is_entitlement w
        = (Normal tt, emit (warning_not_sent e) w2))
  /\ (forall ce w,
        enrollment_mode ce = "verified" ->
        exists service_user,
          refund_seat env ce w
          = (Normal ids,
             (_process_refund env ids client (Enrollment ce) false
                (seat_opened env ce service_user client ids w)).2))
  /\ (forall ent w,
        entitlement_mode ent = "verified" ->
        exists service_user,
          refund_entitlement env ent w
          = (Normal ids,
             (_process_refund env ids client (Entitlement ent) true
                (entitlement_opened env ent service_user client ids w)).2))
  /\ ((forall h, CommerceConfiguration_current env h = Normal false) ->
      (forall h, is_request_in_themed_site env h = Normal true) ->
      (forall ce w,
          enrollment_mode ce = "verified" ->
          (refund_seat env ce w).1 = Normal ids
          /\ last (trace (refund_seat env ce w).2)
             = Some (warning_not_sent themed_refusal))
      /\ (forall ent w,
            entitlement_mode ent = "verified" ->
            (refund_entitlement env ent w).1 = Normal ids
            /\ last (trace (refund_entitlement env ent w).2)
               = Some (warning_not_sent themed_refusal))).
Proof.
  intros Opened Hids.
  split; [| split; [| split; [| split]]].
  - intros product is_entitlement needs w Hmode Hneeds. split.
    + intros e w1 Sent.
      rewrite notify_or_skip_verified by assumption. now rewrite Sent.
    + intros Themed.
      exact (send_refund_notification_themed env product needs w Themed).
  - intros product is_entitlement refund_ids w flag needs w1 e w2.
    apply process_refund_warns.
  - intros ce w Hmode. now apply refund_seat_opened.
  - intros ent w Hmode. now apply refund_entitlement_opened.
  - intros Manual Themed. split.
    + intros ce w Hmode.
      destruct (refund_seat_opened env client ids ce w Opened Hids Hmode)
        as (su & ->).
      destruct (process_refund_themed env ids client (Enrollment ce) false
                  (seat_opened env ce su client ids w) Manual Themed Hmode Hids)
        as (w' & -> & Last).
      now split.
    + intros ent w Hmode.
      destruct (refund_entitlement_opened env client ids ent w Opened Hids
                  Hmode) as (su & ->).
      destruct (process_refund_themed env ids client (Entitlement ent) true
                  (entitlement_opened env ent su client ids w) Manual Themed
                  Hmode Hids)
        as (w' & -> & Last).
      now split.
Qed.

Lemma notification_failure_not_propagated_witness :
  refunds_opened (Scenario.env_of Scenario.themed_site)
    (mkClient Scenario.worker) [501]
  /\ (refund_seat (Scenario.env_of Scenario.themed_site)
        (Scenario.seat "verified") Scenario.start).1
     = Normal [501]
  /\ last (trace (refund_seat (Scenario.env_of Scenario.themed_site)
                    (Scenario.seat "verified") Scenario.start).2)
     = Some (warning_not_sent themed_refusal).
Proof.
  assert (Opened : refunds_opened (Scenario.env_of Scenario.themed_site)
                     (mkClient Scenario.worker) [501]).
  { repeat split.
    - intros h. exists Scenario.worker. split; reflexivity.
    - intros h. exists false. reflexivity. }
  split; [exact Opened |].
  assert (Some_opened : [501] <> []) by discriminate.
  destruct (notification_failure_not_propagated
              (Scenario.env_of Scenario.themed_site) (mkClient Scenario.worker)
              [501] Opened Some_opened) as (_ & _ & _ & _ & Themed).
  destruct (Themed (fun _ => eq_refl) (fun _ => eq_refl)) as (Seat & _).
  exact (Seat (Scenario.seat "verified") Scenario.start eq_refl).
Defined.

(** On the themed site the warning is the last record of the run. *)
Example themed_site_warning :
  last (trace (refund_seat (Scenario.env_of Scenario.themed_site)
                 (Scenario.seat "verified") Scenario.start).2)
  = Some (warning_not_sent
            (NotImplementedError
               "Unable to send refund processing emails to support teams.")).
Proof. vm_compute. reflexivity. Qed.

(** * The receivers as catch boundary *)

(** C4, refuted as stated, in three ways.  The eligibility predicate is
    called before the [try] statement, so what it raises leaves the
    receiver.  The clause is [except Exception], so an interruption of the
    worker while the refund is opened leaves the receiver.  And the
    handler of [handle_refund_entitlement] calls [str(exc)], which fails
    on a unicode message that is not ASCII; [handle_refund_order], which
    does not format the exception, returns on the same failure. *)
Lemma receivers_can_propagate :
  (handle_refund_order (Scenario.env_of Scenario.eligibility_check_breaks)
     (Some (Scenario.seat "verified")) Scenario.start).1
  = Raised (ExceptionSubclass "OperationalError" (Bytes "server has gone away"))
  /\ (handle_refund_entitlement
        (Scenario.env_of Scenario.eligibility_check_breaks)
        (Some (Scenario.entitlement "verified")) Scenario.start).1
     = Raised (ExceptionSubclass "OperationalError"
                 (Bytes "server has gone away"))
  /\ (handle_refund_order (Scenario.env_of Scenario.interrupted)
        (Some (Scenario.seat "verified")) Scenario.start).1
     = Raised (BaseExceptionOnly "KeyboardInterrupt" (Bytes ""))
  /\ (handle_refund_entitlement (Scenario.env_of Scenario.interrupted)
        (Some (Scenario.entitlement "verified")) Scenario.start).1
     = Raised (BaseExceptionOnly "KeyboardInterrupt" (Bytes ""))
  /\ (handle_refund_entitlement (Scenario.env_of Scenario.refused_in_french)
        (Some (Scenario.entitlement "verified")) Scenario.start).1
     = Raised (ExceptionSubclass "UnicodeEncodeError"
                 (Bytes "'ascii' codec can't encode character: ordinal not in range(128)"))
  /\ (handle_refund_order (Scenario.env_of Scenario.refused_in_french)
        (Some (Scenario.seat "verified")) Scenario.start).1
     = Normal tt.
Proof. repeat split; vm_compute; reflexivity. Qed.

Lemma isinstance_and_str e :
  isinstance_Exception e && str_succeeds e = true ->
  isinstance_Exception e = true.
Proof. now intros [H _]%andb_prop. Qed.

(** C4, amended.  When the configuration gate and the eligibility predicate
    answer and the collaborators raise subclasses of [Exception],
    [handle_refund_order] returns normally on every input, and so does
    [handle_refund_entitlement] when [str(exc)] returns for what they
    raise.  An exception raised while the user is resolved or by
    [refund_seat] or [refund_entitlement] is logged by the receiver before
    it returns. *)
Theorem receivers_swallow_exceptions env :
  gates_answer env -> raise_Exceptions env ->
  (forall course_enrollment w,
      exists w', handle_refund_order env course_enrollment w = (Normal tt, w'))
  /\ (printable_messages env ->
      forall course_entitlement w,
        exists w',
          handle_refund_entitlement env course_entitlement w = (Normal tt, w'))
  /\ (forall ce w e,
        order_gate_open env ce w ->
        get_current_request env (trace (past_order_gate ce w)) = Raised e ->
        handle_refund_order env (Some ce) w
        = (Normal tt,
           emit (unexpected_order_failure ce e)
             (emit (Called GetCurrentRequest) (past_order_gate ce w))))
  /\ (forall ce w request e w1,
        order_gate_open env ce w ->
        get_current_request env (trace (past_order_gate ce w)) = Normal request ->
        isinstance_AnonymousUser
          (or_user (user_of request) (Authenticated (enrollment_user ce)))
        = false ->
        refund_seat env ce (emit (Called GetCurrentRequest) (past_order_gate ce w))
        = (Raised e, w1) ->
        handle_refund_order env (Some ce) w
        = (Normal tt, emit (unexpected_order_failure ce e) w1))
  /\ (forall ent w e message,
        entitlement_gate_open env ent w ->
        get_current_request env (trace (past_entitlement_gate ent w))
        = Raised e ->
        py_str_exn e = Normal message ->
        handle_refund_entitlement env (Some ent) w
        = (Normal tt,
           emit (unexpected_entitlement_failure ent e message)
             (emit (Called GetCurrentRequest) (past_entitlement_gate ent w))))
  /\ (forall ent w request requester e w1 message,
        entitlement_gate_open env ent w ->
        get_current_request env (trace (past_entitlement_gate ent w))
        = Normal request ->
        user_of request = Some requester ->
        user_eq (entitlement_user ent) requester = true ->
        refund_entitlement env ent
          (emit (Called GetCurrentRequest) (past_entitlement_gate ent w))
        = (Raised e, w1) ->
        py_str_exn e = Normal message ->
        handle_refund_entitlement env (Some ent) w
        = (Normal tt, emit (unexpected_entitlement_failure ent e message) w1)).
Proof.
  intros (Configured & Eligible & EligibleEnt) Only.
  assert (Attr : forall c a, isinstance_Exception (AttributeError c a) = true)
    by reflexivity.
  split; [| split; [| split; [| split; [| split]]]].
  - intros course_enrollment w. unfold handle_refund_order.
    rewrite bind_eq. unfold invoke at 1.
    destruct (Configured (trace w)) as [[] ->]; cbn [negb];
      [| eexists; reflexivity].
    destruct course_enrollment as [ce |]; [| eexists; reflexivity].
    rewrite bind_eq. unfold invoke at 1.
    destruct (Eligible ce (trace (emit (Called IsCommerceServiceConfigured) w)))
      as [[] ->]; [| eexists; reflexivity].
    apply (try_except_Exception_returns isinstance_Exception); [| auto |].
    + apply raises_only_bind;
        [now apply raises_get_request_user | intros requester].
      destruct (isinstance_AnonymousUser _); [apply raises_only_ret |].
      apply raises_only_bind;
        [now apply raises_refund_seat | intros; apply raises_only_ret].
    + intros e w0 _. eexists. reflexivity.
  - intros Printable course_entitlement w. unfold handle_refund_entitlement.
    assert (Str : forall c a, str_succeeds (AttributeError c a) = true)
      by reflexivity.
    rewrite bind_eq. unfold invoke at 1.
    destruct (Configured (trace w)) as [[] ->]; cbn [negb];
      [| eexists; reflexivity].
    destruct course_entitlement as [ent |]; [| eexists; reflexivity].
    rewrite bind_eq. unfold invoke at 1.
    destruct (EligibleEnt ent
                (trace (emit (Called IsCommerceServiceConfigured) w)))
      as [[] ->]; [| eexists; reflexivity].
    apply (try_except_Exception_returns
             (fun e => isinstance_Exception e && str_succeeds e));
      [| apply isinstance_and_str |].
    + apply raises_only_and.
      * apply raises_only_bind;
          [now apply raises_get_request_user | intros requester].
        destruct requester as [requester |]; [| apply raises_only_ret].
        destruct (user_eq _ _); [| apply raises_only_ret].
        apply raises_only_bind;
          [now apply raises_refund_entitlement | intros; apply raises_only_ret].
      * apply raises_only_bind;
          [now apply raises_get_request_user | intros requester].
        destruct requester as [requester |]; [| apply raises_only_ret].
        destruct (user_eq _ _); [| apply raises_only_ret].
        apply raises_only_bind;
          [now apply raises_refund_entitlement | intros; apply raises_only_ret].
    + intros e w0 [_ Hstr]%andb_prop.
      exact (log_entitlement_failure_returns ent e w0 Hstr).
  - intros ce w e (Conf & Elig) Request.
    assert (He : isinstance_Exception e = true)
      by (destruct Only as (Req & _); eapply Req, Request).
    unfold handle_refund_order. rewrite bind_eq. unfold invoke at 1.
    rewrite Conf. cbn [negb]. rewrite bind_eq. unfold invoke at 1.
    rewrite Elig. unfold try_except, get_request_user.
    rewrite !bind_eq. unfold invoke at 1.
    unfold past_order_gate in Request. rewrite Request.
    unfold except_Exception. rewrite He. reflexivity.
  - intros ce w request e w1 (Conf & Elig) Request NotAnon Run.
    assert (He : isinstance_Exception e = true)
      by (eapply (raises_refund_seat env isinstance_Exception); eassumption).
    unfold handle_refund_order. rewrite bind_eq. unfold invoke at 1.
    rewrite Conf. cbn [negb]. rewrite bind_eq. unfold invoke at 1.
    rewrite Elig. unfold try_except, get_request_user.
    rewrite !bind_eq. unfold invoke at 1.
    unfold past_order_gate in Request, Run. rewrite Request.
    unfold ret at 1. unfold user_of in NotAnon. rewrite NotAnon.
    rewrite bind_eq, Run. unfold except_Exception. rewrite He. reflexivity.
  - intros ent w e message (Conf & Elig) Request Str.
    assert (He : isinstance_Exception e = true)
      by (destruct Only as (Req & _); eapply Req, Request).
    unfold handle_refund_entitlement. rewrite bind_eq. unfold invoke at 1.
    rewrite Conf. cbn [negb]. rewrite bind_eq. unfold invoke at 1.
    rewrite Elig. unfold try_except, get_request_user.
    rewrite !bind_eq. unfold invoke at 1.
    unfold past_entitlement_gate in Request. rewrite Request.
    unfold except_Exception. rewrite He.
    rewrite bind_eq. unfold lift. rewrite Str. reflexivity.
  - intros ent w request requester e w1 message (Conf & Elig) Request User
      Same Run Str.
    assert (He : isinstance_Exception e = true)
      by (eapply (raises_refund_entitlement env isinstance_Exception);
          eassumption).
    unfold handle_refund_entitlement. rewrite bind_eq. unfold invoke at 1.
    rewrite Conf. cbn [negb]. rewrite bind_eq. unfold invoke at 1.
    rewrite Elig. unfold try_except, get_request_user.
    rewrite !bind_eq. unfold invoke at 1.
    unfold past_entitlement_gate in Request, Run. rewrite Request.
    unfold ret at 1. unfold user_of in User. rewrite User, Same.
    rewrite bind_eq, Run. unfold except_Exception. rewrite He.
    rewrite bind_eq. unfold lift. rewrite Str. reflexivity.
Qed.

Lemma receivers_swallow_exceptions_witness :
  gates_answer (Scenario.env_of Scenario.gateway_down)
  /\ raise_Exceptions (Scenario.env_of Scenario.gateway_down)
  /\ printable_messages (Scenario.env_of Scenario.gateway_down)
  /\ (exists w',
         handle_refund_order (Scenario.env_of Scenario.gateway_down)
           (Some (Scenario.seat "verified")) Scenario.start
         = (Normal tt, w'))
  /\ (exists w',
         handle_refund_entitlement (Scenario.env_of Scenario.gateway_down)
           (Some (Scenario.entitlement "verified")) Scenario.start
         = (Normal tt, w')).
Proof.
  assert (Gates : gates_answer (Scenario.env_of Scenario.gateway_down)).
  { repeat split; intros; exists true; reflexivity. }
  assert (Only : raise_Exceptions (Scenario.env_of Scenario.gateway_down)).
  { repeat split; simpl; intros; try discriminate.
    match goal with H : Raised _ = Raised _ |- _ => injection H as <- end.
    reflexivity. }
  assert (Printable : printable_messages
                        (Scenario.env_of Scenario.gateway_down)).
  { repeat split; simpl; intros; try discriminate.
    match goal with H : Raised _ = Raised _ |- _ => injection H as <- end.
    reflexivity. }
  split; [exact Gates | split; [exact Only | split; [exact Printable |]]].
  destruct (receivers_swallow_exceptions
              (Scenario.env_of Scenario.gateway_down) Gates Only)
    as (Order & Entitled & _).
  split.
  - exact (Order (Some (Scenario.seat "verified")) Scenario.start).
  - exact (Entitled Printable (Some (Scenario.entitlement "verified"))
             Scenario.start).
Defined.

(** With the gateway down the receiver logs the timeout and returns; a
    failure of the request cache is logged in the same way. *)
Example gateway_down_is_logged :
  let run := handle_refund_order (Scenario.env_of Scenario.gateway_down)
               (Some (Scenario.seat "verified")) Scenario.start in
  let lost := handle_refund_order
                (Scenario.env_of Scenario.request_lookup_breaks)
                (Some (Scenario.seat "verified")) Scenario.start in
  run.1 = Normal tt
  /\ last (trace run.2)
     = Some (unexpected_order_failure (Scenario.seat "verified")
               (ExceptionSubclass "Timeout" (Bytes "connect timed out")))
  /\ lost.1 = Normal tt
  /\ last (trace lost.2)
     = Some (unexpected_order_failure (Scenario.seat "verified")
               (ExceptionSubclass "RuntimeError"
                  (Bytes "request cache unavailable"))).
Proof. repeat split; vm_compute; reflexivity. Qed.

(** * Nothing to refund *)



(** * Who may trigger the refund *)

(** C7. Past the configuration and eligibility gates,
    [handle_refund_entitlement] runs [refund_entitlement] exactly when a
    user was resolved from the request and it is the owner of the
    entitlement; otherwise it returns at once, and nothing was sent to
    the commerce service or to the ticketing system. *)
Theorem entitlement_refund_needs_owner env ent w request :
  entitlement_gate_open env ent w ->
  get_current_request env (trace (past_entitlement_gate ent w))
  = Normal request ->
  let resolved := emit (Called GetCurrentRequest) (past_entitlement_gate ent w) in
  let run := handle_refund_entitlement env (Some ent) w in
  exists seg,
    trace run.2 = trace w ++ seg
    /\ List.existsb is_service_user_lookup seg = owner_acts ent (user_of request)
    /\ (owner_acts ent (user_of request) = true ->
        run = try_except (refund_entitlement env ent ;; ret tt)
                except_Exception (log_entitlement_failure ent) resolved)
    /\ (owner_acts ent (user_of request) = false ->
        run = (Normal tt, resolved) /\ List.existsb is_outbound seg = false).
Proof.
  intros (Conf & Elig) Request resolved run.
  assert (Run : run = if owner_acts ent (user_of request)
                      then try_except (refund_entitlement env ent ;; ret tt)
                             except_Exception (log_entitlement_failure ent)
                             resolved
                      else (Normal tt, resolved)).
  { unfold run, handle_refund_entitlement.
    rewrite bind_eq. unfold invoke at 1. rewrite Conf. cbn [negb].
    rewrite bind_eq. unfold invoke at 1. rewrite Elig.
    unfold try_except at 1, get_request_user.
    rewrite !bind_eq. unfold invoke at 1.
    unfold past_entitlement_gate in Request. rewrite Request.
    unfold ret at 1. unfold owner_acts, user_of.
    destruct (match request with
              | Some r => request_user_attr r
              | None => None
              end) as [requester |]; [| reflexivity].
    destruct (user_eq (entitlement_user ent) requester); reflexivity. }
  destruct (owner_acts ent (user_of request)) eqn:Owner.
  - destruct (starts_with_guarded _ (refund_entitlement env ent)
                except_Exception (log_entitlement_failure ent)
                (refund_entitlement_starts env ent)
                (emits_log_entitlement_failure ent) resolved)
      as (seg & E).
    exists ([Called IsCommerceServiceConfigured;
             Called (IsEntitlementRefundable ent);
             Called GetCurrentRequest]
            ++ Called (ServiceUserLookup
                         (ECOMMERCE_SERVICE_WORKER_USERNAME (settings env)))
               :: seg).
    split; [| split; [reflexivity | split; [intros _; exact Run | discriminate]]].
    rewrite Run, E. unfold resolved, past_entitlement_gate. simpl.
    now rewrite <- !app_assoc.
  - exists [Called IsCommerceServiceConfigured;
            Called (IsEntitlementRefundable ent);
            Called GetCurrentRequest].
    split; [| split; [reflexivity | split; [discriminate | intros _; now split]]].
    rewrite Run. unfold resolved, past_entitlement_gate. simpl.
    now rewrite <- !app_assoc.
Qed.

Lemma entitlement_refund_needs_owner_witness :
  entitlement_gate_open (Scenario.env_of Scenario.acted_by_staff)
    (Scenario.entitlement "verified") Scenario.start
  /\ exists seg,
       trace (handle_refund_entitlement
                (Scenario.env_of Scenario.acted_by_staff)
                (Some (Scenario.entitlement "verified")) Scenario.start).2
       = trace Scenario.start ++ seg
       /\ List.existsb is_service_user_lookup seg = false.
Proof.
  assert (Gate : entitlement_gate_open (Scenario.env_of Scenario.acted_by_staff)
                   (Scenario.entitlement "verified") Scenario.start)
    by (split; reflexivity).
  split; [exact Gate |].
  destruct (entitlement_refund_needs_owner
              (Scenario.env_of Scenario.acted_by_staff)
              (Scenario.entitlement "verified") Scenario.start
              (Some (mkRequest (Some (Authenticated Scenario.bob))))
              Gate eq_refl) as (seg & Grows & Lookup & _).
  exists seg. split; [exact Grows | exact Lookup].
Defined.

(** The owner herself gets her entitlement refunded; a member of staff
    acting for her does not reach the commerce service. *)
Example entitlement_owner_and_staff :
  List.existsb is_outbound
    (trace (handle_refund_entitlement (Scenario.env_of Scenario.smooth)
              (Some (Scenario.entitlement "verified")) Scenario.start).2)
  = true
  /\ List.existsb is_outbound
       (trace (handle_refund_entitlement
                 (Scenario.env_of Scenario.acted_by_staff)
                 (Some (Scenario.entitlement "verified")) Scenario.start).2)
     = false
  /\ List.existsb is_outbound
       (trace (handle_refund_entitlement
                 (Scenario.env_of Scenario.no_request)
                 (Some (Scenario.entitlement "verified")) Scenario.start).2)
     = false.
Proof. repeat split; vm_compute; reflexivity. Qed.

(** C8. Past the gates of [handle_refund_order]: when no user is resolved
    from the request, the owner of the enrollment is the acting user and
    [refund_seat] runs; when the acting user is anonymous the receiver
    returns at once and nothing was sent to the commerce service or to the
    ticketing system. *)
Theorem order_refund_acting_user env ce w request :
  order_gate_open env ce w ->
  get_current_request env (trace (past_order_gate ce w)) = Normal request ->
  let resolved := emit (Called GetCurrentRequest) (past_order_gate ce w) in
  let request_user :=
    or_user (user_of request) (Authenticated (enrollment_user ce)) in
  let run := handle_refund_order env (Some ce) w in
  (user_of request = None ->
   request_user = Authenticated (enrollment_user ce)
   /\ run = try_except (refund_seat env ce ;; ret tt) except_Exception
              (log_order_failure ce) resolved)
  /\ (request_user = AnonymousUser -> run = (Normal tt, resolved))
  /\ exists seg,
       trace run.2 = trace w ++ seg
       /\ List.existsb is_service_user_lookup seg
          = negb (isinstance_AnonymousUser request_user)
       /\ (request_user = AnonymousUser ->
           List.existsb is_outbound seg = false).
Proof.
  intros (Conf & Elig) Request resolved request_user run.
  assert (Run : run = if isinstance_AnonymousUser request_user
                      then (Normal tt, resolved)
                      else try_except (refund_seat env ce ;; ret tt)
                             except_Exception (log_order_failure ce) resolved).
  { unfold run, handle_refund_order.
    rewrite bind_eq. unfold invoke at 1. rewrite Conf. cbn [negb].
    rewrite bind_eq. unfold invoke at 1. rewrite Elig.
    unfold try_except at 1, get_request_user.
    rewrite !bind_eq. unfold invoke at 1.
    unfold past_order_gate in Request. rewrite Request.
    unfold ret at 1. fold (user_of request). fold request_user.
    destruct (isinstance_AnonymousUser request_user); reflexivity. }
  split; [| split].
  - intros Nobody. unfold request_user in *. rewrite Nobody in *.
    split; [reflexivity | exact Run].
  - intros Anonymous. rewrite Run, Anonymous. reflexivity.
  - destruct (isinstance_AnonymousUser request_user) eqn:Anon.
    + exists [Called IsCommerceServiceConfigured; Called (Refundable ce);
              Called GetCurrentRequest].
      split; [| split; [reflexivity | reflexivity]].
      rewrite Run. unfold resolved, past_order_gate. simpl.
      now rewrite <- !app_assoc.
    + destruct (starts_with_guarded _ (refund_seat env ce)
                  except_Exception (log_order_failure ce)
                  (refund_seat_starts env ce)
                  (fun e => emits_log any_event _ _ _ _ eq_refl) resolved)
        as (seg & E).
      exists ([Called IsCommerceServiceConfigured; Called (Refundable ce);
               Called GetCurrentRequest]
              ++ Called (ServiceUserLookup
                           (ECOMMERCE_SERVICE_WORKER_USERNAME (settings env)))
                 :: seg).
      split; [| split; [reflexivity |]].
      * rewrite Run, E. unfold resolved, past_order_gate. simpl.
        now rewrite <- !app_assoc.
      * intros Anonymous. rewrite Anonymous in Anon. discriminate.
Qed.

Lemma order_refund_acting_user_witness :
  order_gate_open (Scenario.env_of Scenario.anonymous_request)
    (Scenario.seat "verified") Scenario.start
  /\ handle_refund_order (Scenario.env_of Scenario.anonymous_request)
       (Some (Scenario.seat "verified")) Scenario.start
     = (Normal tt,
        emit (Called GetCurrentRequest)
          (past_order_gate (Scenario.seat "verified") Scenario.start)).
Proof.
  assert (Gate : order_gate_open (Scenario.env_of Scenario.anonymous_request)
                   (Scenario.seat "verified") Scenario.start)
    by (split; reflexivity).
  split; [exact Gate |].
  destruct (order_refund_acting_user
              (Scenario.env_of Scenario.anonymous_request)
              (Scenario.seat "verified") Scenario.start
              (Some (mkRequest (Some AnonymousUser))) Gate eq_refl)
    as (_ & Anonymous & _).
  exact (Anonymous eq_refl).
Defined.

(** Without a request the owner acts and the refund is opened; an
    anonymous request opens nothing. *)
Example order_without_request_and_anonymous :
  List.existsb is_outbound
    (trace (handle_refund_order (Scenario.env_of Scenario.no_request)
              (Some (Scenario.seat "verified")) Scenario.start).2)
  = true
  /\ List.existsb is_outbound
       (trace (handle_refund_order
                 (Scenario.env_of Scenario.anonymous_request)
                 (Some (Scenario.seat "verified")) Scenario.start).2)
     = false.
Proof. split; vm_compute; reflexivity. Qed.

(** * The ticket *)

(** C9. [create_zendesk_ticket] returns normally on every input.  Without
    the Zendesk settings it only writes a debug record.  Otherwise it posts
    once, and writes one record for the answer: a transport error, a status
    other than 201, or success. *)
Theorem create_zendesk_ticket_never_raises env name mail subject body tags w :
  (forall url data auth headers h e,
      requests_post env url data auth headers h = Raised e ->
      isinstance_Exception e = true) ->
  exists w',
    create_zendesk_ticket env name mail subject body tags w = (Normal tt, w')
    /\ if zendesk_configured (settings env)
       then exists url data auth headers,
              trace w'
              = trace w ++ [Called (RequestsPost url data auth headers);
                            ticket_record
                              (requests_post env url data auth headers (trace w))]
       else w' = emit (Log DEBUG
                         "Zendesk is not configured. Cannot create a ticket."
                         [] None) w.
Proof.
  intros Transport. unfold create_zendesk_ticket, zendesk_configured.
  destruct (truthy (ZENDESK_URL (settings env))
            && truthy (ZENDESK_USER (settings env))
            && truthy (ZENDESK_API_KEY (settings env))); cbn [negb];
    [| eexists; split; reflexivity].
  destruct tags as [l |];
    unfold bind, read_list, new_list, list_append, ret, try_except, invoke,
      log_error, log_debug, log_exception, log, except_Exception, emit;
    cbn [trace heap];
    match goal with
    | |- context [requests_post env ?u ?d ?a ?hd (trace w)] =>
        pose proof (Transport u d a hd (trace w)) as Caught;
        destruct (requests_post env u d a hd (trace w)) as [r | e] eqn:Answer;
        [ destruct (Z.eqb (status_code r) 201) eqn:Status; cbn [negb]
        | rewrite (Caught e eq_refl) ];
        (eexists; split; [reflexivity |]; exists u, d, a, hd;
         rewrite Answer; cbn [trace ticket_record]; rewrite ?Status;
         now rewrite <- app_assoc)
    end.
Qed.

Lemma create_zendesk_ticket_never_raises_witness :
  (forall url data auth headers h e,
      requests_post (Scenario.env_of Scenario.ticketing_down)
        url data auth headers h = Raised e ->
      isinstance_Exception e = true)
  /\ exists w',
       create_zendesk_ticket (Scenario.env_of Scenario.ticketing_down)
         "Alice A." "alice@example.com" "[Refund] User-Requested Refund"
         "A refund request has been initiated." None Scenario.start
       = (Normal tt, w').
Proof.
  assert (Transport :
            forall url data auth headers h e,
              requests_post (Scenario.env_of Scenario.ticketing_down)
                url data auth headers h = Raised e ->
              isinstance_Exception e = true).
  { simpl. intros url data auth headers h e Answer.
    injection Answer as <-. reflexivity. }
  split; [exact Transport |].
  destruct (create_zendesk_ticket_never_raises
              (Scenario.env_of Scenario.ticketing_down)
              "Alice A." "alice@example.com" "[Refund] User-Requested Refund"
              "A refund request has been initiated." None Scenario.start
              Transport) as (w' & Run & _).
  exists w'. exact Run.
Defined.

(** The three outcomes of the POST, and the unconfigured case. *)
Example ticket_records :
  ticket_record (Normal (mkResponse 201 "")) 
  = Log DEBUG "Successfully created ticket." [] None
  /\ ticket_record (Normal (mkResponse 503 "unavailable"))
     = Log ERROR "Failed to create ticket. Status: [%d], Body: [%s]"
         [ArgInt 503; ArgStr "unavailable"] None
  /\ trace (create_zendesk_ticket
              (Scenario.env_of
                 (Scenario.mkAnswers Scenario.without_zendesk (Normal true)
                    (Normal true) (Normal None) (Normal false) (Normal [501])
                    (fun _ => Normal tt) (Normal false)
                    (Normal (mkResponse 201 ""))))
              "Alice A." "alice@example.com" "subject" "body" None
              Scenario.start).2
     = [Log DEBUG "Zendesk is not configured. Cannot create a ticket." []
          None].
Proof. repeat split. Qed.

(** C10. [create_zendesk_ticket] works on a copy of [tags]: every list
    object that exists when it is called, the caller's list of tags among
    them, has the same elements when it returns. *)
Theorem create_zendesk_ticket_keeps_tags env name mail subject body tags w :
  forall l ys,
    heap w !! l = Some ys ->
    heap (create_zendesk_ticket env name mail subject body tags w).2 !! l
    = Some ys.
Proof.
  intros l ys Held. unfold create_zendesk_ticket.
  destruct (truthy (ZENDESK_URL (settings env))
            && truthy (ZENDESK_USER (settings env))
            && truthy (ZENDESK_API_KEY (settings env))); cbn [negb];
    [| exact Held].
  destruct tags as [given |];
    unfold bind, read_list, new_list, list_append, ret, try_except, invoke,
      log_error, log_debug, log_exception, log, except_Exception, emit;
    cbn [trace heap];
    match goal with
    | |- context [requests_post env ?u ?d ?a ?hd (trace w)] =>
        destruct (requests_post env u d a hd (trace w)) as [r | e];
        [ destruct (negb (Z.eqb (status_code r) 201))
        | destruct (isinstance_Exception e) ]
    end;
    cbn [snd heap];
    apply insert_fresh_keeps;
    (apply insert_other_keeps; [now apply fresh_not_allocated with ys |]);
    now apply insert_fresh_keeps.
Qed.

Lemma create_zendesk_ticket_keeps_tags_witness :
  heap (Scenario.with_tags ["auto_refund"]) !! 0%nat = Some ["auto_refund"]
  /\ heap (create_zendesk_ticket (Scenario.env_of Scenario.smooth)
             "Alice A." "alice@example.com" "[Refund] User-Requested Refund"
             "A refund request has been initiated." (Some 0%nat)
             (Scenario.with_tags ["auto_refund"])).2 !! 0%nat
     = Some ["auto_refund"].
Proof.
  assert (Held : heap (Scenario.with_tags ["auto_refund"]) !! 0%nat
                 = Some ["auto_refund"])
    by (vm_compute; reflexivity).
  split; [exact Held |].
  exact (create_zendesk_ticket_keeps_tags (Scenario.env_of Scenario.smooth)
           "Alice A." "alice@example.com" "[Refund] User-Requested Refund"
           "A refund request has been initiated." (Some 0%nat)
           (Scenario.with_tags ["auto_refund"]) 0%nat ["auto_refund"] Held).
Defined.

(** The marker is appended to the copy at a new location and the
    duplicates are removed in a third list; the caller's list, which
    already held the marker, is as it was. *)
Example caller_tags_untouched :
  map_to_list
    (heap (create_zendesk_ticket (Scenario.env_of Scenario.smooth)
             "Alice A." "alice@example.com" "subject" "body" (Some 0%nat)
             (Scenario.with_tags ["auto_refund"; "LMS"])).2)
  = [(2%nat, ["auto_refund"; "LMS"]);
     (1%nat, ["auto_refund"; "LMS"; "LMS"]);
     (0%nat, ["auto_refund"; "LMS"])].
Proof. vm_compute. reflexivity. Qed.

(** * Further properties of the module *)

(** ** Closed gates *)





(** ** What makes the orchestration fail *)

Lemma requiring_approval_returns env flag client refund_ids w :
  exists needs seg,
    requiring_approval env flag client refund_ids w
    = (Normal needs, mkWorld (heap w) (trace w ++ seg)).
Proof.
  destruct flag; simpl.
  - destruct (approve_each_spec env client refund_ids [] w)
      as (seg & Run & _).
    rewrite Run. eauto.
  - exists refund_ids, []. unfold ret. rewrite app_nil_r. now destruct w.
Qed.

Lemma notify_or_skip_enrollment_returns env ce needs w :
  exists w', notify_or_skip env (Enrollment ce) false needs w = (Normal tt, w').
Proof.
  destruct needs as [| refund_id rest]; [eexists; reflexivity |].
  destruct (String.eqb (enrollment_mode ce) "verified") eqn:Mode.
  - apply String.eqb_eq in Mode.
    rewrite notify_or_skip_verified by (assumption || discriminate).
    destruct (send_refund_notification _ _ _ _) as [[[] | e] w1];
      eexists; reflexivity.
  - apply String.eqb_neq in Mode.
    rewrite enrollment_notification_suppressed by (assumption || discriminate).
    eexists; reflexivity.
Qed.

(** X3. When [refund_seat] raises, the last thing it did was one of its
    four unguarded calls (the service user lookup, the construction of the
    client, the request that opens the refund, the read of the
    configuration), and what it raises is what that call raised; up to
    then no approval was requested and no notification attempted.  A
    failed approval or a failed notification never makes it fail. *)
Theorem refund_seat_failure_origin env ce w e w' :
  refund_seat env ce w = (Raised e, w') ->
  exists seg c,
    trace w' = trace w ++ seg ++ [Called c]
    /\ is_setup_call c = true
    /\ answer_raises env c (trace w ++ seg) e
    /\ List.existsb is_approval_call seg = false
    /\ List.existsb is_notification_attempt seg = false.
Proof.
  unfold refund_seat. cbv zeta. rewrite bind_eq. unfold invoke at 1.
  destruct (User_objects_get env _ (trace w)) as [su | e1] eqn:Found.
  2:{ intros [= <- <-]. exists [], (ServiceUserLookup
        (ECOMMERCE_SERVICE_WORKER_USERNAME (settings env))).
      repeat split. cbn [answer_raises]. now rewrite app_nil_r. }
  rewrite bind_eq. unfold invoke at 1.
  destruct (ecommerce_api_client env su _) as [client | e1] eqn:Built.
  2:{ intros [= <- <-]. eexists [_], (EcommerceApiClient su).
      split; [cbn [trace emit]; now rewrite <- ?app_assoc |].
      split; [reflexivity | split; [exact Built | now split]]. }
  rewrite bind_eq. cbn [log_info log]. rewrite bind_eq. unfold invoke at 1.
  destruct (refunds_post env client _ _) as [ids | e1] eqn:Posted.
  2:{ intros [= <- <-]. eexists [_; _; _], (RefundsPost client _).
      split; [cbn [trace emit]; now rewrite <- ?app_assoc |].
      split; [reflexivity | split; [| now split]].
      cbn [answer_raises]. cbn [trace emit] in Posted.
      rewrite <- !app_assoc in Posted. exact Posted. }
  destruct ids as [| refund_id rest]; cbn [nonempty].
  { rewrite bind_eq. cbn [log_info log ret]. discriminate. }
  rewrite bind_eq, bind_eq. cbn [log_info log].
  unfold _process_refund. rewrite bind_eq. unfold invoke at 1.
  destruct (CommerceConfiguration_current env _) as [flag | e1] eqn:Config.
  2:{ intros [= <- <-]. eexists [_; _; _; _; _], CommerceConfigurationCurrent.
      split; [cbn [trace emit]; now rewrite <- ?app_assoc |].
      split; [reflexivity | split; [| now split]].
      cbn [answer_raises]. cbn [trace emit] in Config.
      rewrite <- !app_assoc in Config. exact Config. }
  rewrite bind_eq.
  match goal with
  | |- context [requiring_approval env flag client ?i ?w0] =>
      destruct (requiring_approval_returns env flag client i w0)
        as (needs & seg & ->)
  end.
  match goal with
  | |- context [notify_or_skip env ?p false needs ?w0] =>
      destruct (notify_or_skip_enrollment_returns env ce needs w0) as (w1 & ->)
  end.
  discriminate.
Qed.

Lemma refund_seat_failure_origin_witness :
  refund_seat (Scenario.env_of Scenario.gateway_down)
    (Scenario.seat "verified") Scenario.start
  = (Raised (ExceptionSubclass "Timeout" (Bytes "connect timed out")),
     mkWorld ∅
       [Called (ServiceUserLookup "ecommerce_worker");
        Called (EcommerceApiClient Scenario.worker);
        Log INFO "Attempting to create a refund for user [%s], course [%s]..."
          [ArgInt 17; ArgStr "course-v1:edX+DemoX+Demo"] None;
        Called (RefundsPost (mkClient Scenario.worker)
                  [("course_id", "course-v1:edX+DemoX+Demo");
                   ("username", "alice")])])
  /\ exists seg c,
       [Called (ServiceUserLookup "ecommerce_worker");
        Called (EcommerceApiClient Scenario.worker);
        Log INFO "Attempting to create a refund for user [%s], course [%s]..."
          [ArgInt 17; ArgStr "course-v1:edX+DemoX+Demo"] None;
        Called (RefundsPost (mkClient Scenario.worker)
                  [("course_id", "course-v1:edX+DemoX+Demo");
                   ("username", "alice")])]
       = [] ++ seg ++ [Called c]
       /\ is_setup_call c = true
       /\ answer_raises (Scenario.env_of Scenario.gateway_down) c ([] ++ seg)
            (ExceptionSubclass "Timeout" (Bytes "connect timed out")).
Proof.
  assert (Run : refund_seat (Scenario.env_of Scenario.gateway_down)
                  (Scenario.seat "verified") Scenario.start
                = (Raised (ExceptionSubclass "Timeout"
                             (Bytes "connect timed out")),
                   mkWorld ∅
                     [Called (ServiceUserLookup "ecommerce_worker");
                      Called (EcommerceApiClient Scenario.worker);
                      Log INFO
                        "Attempting to create a refund for user [%s], course [%s]..."
                        [ArgInt 17; ArgStr "course-v1:edX+DemoX+Demo"] None;
                      Called (RefundsPost (mkClient Scenario.worker)
                                [("course_id", "course-v1:edX+DemoX+Demo");
                                 ("username", "alice")])]))
    by (vm_compute; reflexivity).
  split; [exact Run |].
  destruct (refund_seat_failure_origin _ _ _ _ _ Run)
    as (seg & c & Trace & Setup & Answer & _).
  exists seg, c. split; [exact Trace | split; [exact Setup | exact Answer]].
Defined.

Lemma notify_or_skip_entitlement_outcome env ent needs w :
  (exists w', notify_or_skip env (Entitlement ent) true needs w = (Normal tt, w'))
  \/ (notify_or_skip env (Entitlement ent) true needs w
      = (Raised (AttributeError "CourseEntitlement" "course_id"), w)
      /\ entitlement_mode ent <> "verified").
Proof.
  destruct needs as [| refund_id rest]; [left; eexists; reflexivity |].
  destruct (String.eqb (entitlement_mode ent) "verified") eqn:Mode.
  - left. apply String.eqb_eq in Mode.
    rewrite notify_or_skip_verified by (assumption || discriminate).
    destruct (send_refund_notification _ _ _ _) as [[[] | e] w1];
      eexists; reflexivity.
  - right. apply String.eqb_neq in Mode. split; [| exact Mode].
    now apply entitlement_notification_not_suppressed.
Qed.

(** X4. When [refund_entitlement] raises, either the last thing it did
    was one of its four unguarded calls and what it raises is what that
    call raised, or it raises the [AttributeError] of the suppression
    branch, and then the mode of the entitlement is not verified. *)
Theorem refund_entitlement_failure_origin env ent w e w' :
  refund_entitlement env ent w = (Raised e, w') ->
  (exists seg c,
      trace w' = trace w ++ seg ++ [Called c]
      /\ is_setup_call c = true
      /\ answer_raises env c (trace w ++ seg) e
      /\ List.existsb is_approval_call seg = false
      /\ List.existsb is_notification_attempt seg = false)
  \/ (e = AttributeError "CourseEntitlement" "course_id"
      /\ entitlement_mode ent <> "verified").
Proof.
  unfold refund_entitlement. cbv zeta. rewrite bind_eq. unfold invoke at 1.
  destruct (User_objects_get env _ (trace w)) as [su | e1] eqn:Found.
  2:{ intros [= <- <-]. left. exists [], (ServiceUserLookup
        (ECOMMERCE_SERVICE_WORKER_USERNAME (settings env))).
      repeat split. cbn [answer_raises]. now rewrite app_nil_r. }
  rewrite bind_eq. unfold invoke at 1.
  destruct (ecommerce_api_client env su _) as [client | e1] eqn:Built.
  2:{ intros [= <- <-]. left. eexists [_], (EcommerceApiClient su).
      split; [cbn [trace emit]; now rewrite <- ?app_assoc |].
      split; [reflexivity | split; [exact Built | now split]]. }
  rewrite bind_eq. cbn [log_info log]. rewrite bind_eq. unfold invoke at 1.
  destruct (refunds_post env client _ _) as [ids | e1] eqn:Posted.
  2:{ intros [= <- <-]. left. eexists [_; _; _], (RefundsPost client _).
      split; [cbn [trace emit]; now rewrite <- ?app_assoc |].
      split; [reflexivity | split; [| now split]].
      cbn [answer_raises]. cbn [trace emit] in Posted.
      rewrite <- !app_assoc in Posted. exact Posted. }
  destruct ids as [| refund_id rest]; cbn [nonempty].
  { rewrite bind_eq. cbn [log_info log ret]. discriminate. }
  rewrite bind_eq, bind_eq. cbn [log_info log].
  unfold _process_refund. rewrite bind_eq. unfold invoke at 1.
  destruct (CommerceConfiguration_current env _) as [flag | e1] eqn:Config.
  2:{ intros [= <- <-]. left.
      eexists [_; _; _; _; _], CommerceConfigurationCurrent.
      split; [cbn [trace emit]; now rewrite <- ?app_assoc |].
      split; [reflexivity | split; [| now split]].
      cbn [answer_raises]. cbn [trace emit] in Config.
      rewrite <- !app_assoc in Config. exact Config. }
  rewrite bind_eq.
  match goal with
  | |- context [requiring_approval env flag client ?i ?w0] =>
      destruct (requiring_approval_returns env flag client i w0)
        as (needs & seg & ->)
  end.
  match goal with
  | |- context [notify_or_skip env ?p true needs ?w0] =>
      destruct (notify_or_skip_entitlement_outcome env ent needs w0)
        as [(w1 & ->) | (-> & Mode)]
  end.
  - discriminate.
  - intros [= <- <-]. now right.
Qed.

Lemma refund_entitlement_failure_origin_witness :
  refund_entitlement (Scenario.env_of Scenario.gateway_down)
    (Scenario.entitlement "verified") Scenario.start
  = (Raised (ExceptionSubclass "Timeout" (Bytes "connect timed out")),
     mkWorld ∅
       [Called (ServiceUserLookup "ecommerce_worker");
        Called (EcommerceApiClient Scenario.worker);
        Log INFO
          "Attempting to create a refund for user [%s], course entitlement [%s]..."
          [ArgStr "alice"; ArgStr "6f1b5e0c"] None;
        Called (RefundsPost (mkClient Scenario.worker)
                  [("order_number", "EDX-100017"); ("username", "alice");
                   ("entitlement_uuid", "6f1b5e0c")])])
  /\ ((exists seg c,
          [Called (ServiceUserLookup "ecommerce_worker");
           Called (EcommerceApiClient Scenario.worker);
           Log INFO
             "Attempting to create a refund for user [%s], course entitlement [%s]..."
             [ArgStr "alice"; ArgStr "6f1b5e0c"] None;
           Called (RefundsPost (mkClient Scenario.worker)
                     [("order_number", "EDX-100017"); ("username", "alice");
                      ("entitlement_uuid", "6f1b5e0c")])]
          = [] ++ seg ++ [Called c]
          /\ is_setup_call c = true
          /\ answer_raises (Scenario.env_of Scenario.gateway_down) c
               ([] ++ seg)
               (ExceptionSubclass "Timeout" (Bytes "connect timed out"))
          /\ List.existsb is_approval_call seg = false
          /\ List.existsb is_notification_attempt seg = false)
      \/ (ExceptionSubclass "Timeout" (Bytes "connect timed out")
          = AttributeError "CourseEntitlement" "course_id"
          /\ "verified" <> "verified")).
Proof.
  assert (Run : refund_entitlement (Scenario.env_of Scenario.gateway_down)
                  (Scenario.entitlement "verified") Scenario.start
                = (Raised (ExceptionSubclass "Timeout"
                             (Bytes "connect timed out")),
                   mkWorld ∅
                     [Called (ServiceUserLookup "ecommerce_worker");
                      Called (EcommerceApiClient Scenario.worker);
                      Log INFO
                        "Attempting to create a refund for user [%s], course entitlement [%s]..."
                        [ArgStr "alice"; ArgStr "6f1b5e0c"] None;
                      Called (RefundsPost (mkClient Scenario.worker)
                                [("order_number", "EDX-100017");
                                 ("username", "alice");
                                 ("entitlement_uuid", "6f1b5e0c")])]))
    by (vm_compute; reflexivity).
  split; [exact Run |].
  exact (refund_entitlement_failure_origin _ _ _ _ _ Run).
Defined.

(** ** The approval loop, further *)

Lemma approve_each_all_succeed env client refund_ids :
  (forall refund_id h,
      In refund_id refund_ids ->
      refunds_process_put env client refund_id "approve_payment_only" h
      = Normal tt) ->
  forall acc w,
    approve_each env client refund_ids acc w
    = (Normal acc,
       mkWorld (heap w) (trace w ++ flat_map (approved client) refund_ids)).
Proof.
  induction refund_ids as [| refund_id rest IH]; intros Ok acc w.
  - simpl. rewrite app_nil_r. now destruct w.
  - cbn [approve_each]. rewrite bind_eq. unfold try_except.
    rewrite bind_eq. unfold invoke at 1.
    rewrite (Ok refund_id (trace w)) by now left.
    rewrite bind_eq. cbn [log_info log ret].
    rewrite IH by (intros r h Hr; apply Ok; now right).
    cbn [heap trace emit flat_map approved]. unfold approval_of.
    now rewrite <- !app_assoc.
Qed.

(** X5. With automatic approval enabled and every approval going
    through, [_process_refund] is the approval loop and nothing else: one
    request and one record per refund ID, then a normal return, without
    looking at the mode of the product and without any notification. *)
Theorem all_approved_nothing_else env refund_ids client product
    is_entitlement w :
  CommerceConfiguration_current env (trace w) = Normal true ->
  (forall refund_id h,
      In refund_id refund_ids ->
      refunds_process_put env client refund_id "approve_payment_only" h
      = Normal tt) ->
  _process_refund env refund_ids client product is_entitlement w
  = (Normal tt,
     mkWorld (heap w)
       (trace w ++ Called CommerceConfigurationCurrent
                   :: flat_map (approved client) refund_ids)).
Proof.
  intros Config Ok. unfold _process_refund.
  rewrite bind_eq. unfold invoke. rewrite Config. rewrite bind_eq.
  unfold requiring_approval. rewrite approve_each_all_succeed by exact Ok.
  cbn [notify_or_skip nonempty ret heap trace emit].
  now rewrite <- app_assoc.
Qed.

Lemma all_approved_nothing_else_witness :
  _process_refund (Scenario.env_of Scenario.smooth) [501; 502]
    (mkClient Scenario.worker)
    (Entitlement (Scenario.entitlement "professional")) true Scenario.start
  = (Normal tt,
     mkWorld ∅
       ([] ++ Called CommerceConfigurationCurrent
              :: flat_map (approved (mkClient Scenario.worker)) [501; 502])).
Proof.
  apply (all_approved_nothing_else (Scenario.env_of Scenario.smooth)
           [501; 502] (mkClient Scenario.worker)
           (Entitlement (Scenario.entitlement "professional")) true
           Scenario.start).
  - reflexivity.
  - intros refund_id h _. reflexivity.
Defined.

Lemma approve_each_sublist env client refund_ids :
  forall acc w,
  exists extra,
    (approve_each env client refund_ids acc w).1 = Normal (acc ++ extra)
    /\ sublist extra refund_ids.
Proof.
  induction refund_ids as [| refund_id rest IH]; intros acc w.
  - exists []. simpl. rewrite app_nil_r. split; [reflexivity | constructor].
  - cbn [approve_each]. rewrite bind_eq. unfold try_except.
    rewrite bind_eq. unfold invoke at 1.
    destruct (refunds_process_put env client refund_id "approve_payment_only"
                (trace w)) as [[] | e].
    + rewrite bind_eq. cbn [log_info log ret].
      match goal with
      | |- context [approve_each env client rest acc ?w0] =>
          destruct (IH acc w0) as (extra & Run & Sub)
      end.
      exists extra. split; [exact Run | now apply sublist_cons].
    + unfold except_all. rewrite bind_eq. cbn [log_exception log ret].
      match goal with
      | |- context [approve_each env client rest ?a ?w0] =>
          destruct (IH a w0) as (extra & Run & Sub)
      end.
      exists (refund_id :: extra). split.
      * rewrite Run. now rewrite <- app_assoc.
      * now apply sublist_skip.
Qed.

(** X6. Whatever the configuration and whatever the approvals do, the
    list of refunds requiring approval is the list of opened refund IDs
    with some of them left out: no ID is added, repeated or moved. *)
Theorem requiring_approval_sublist env flag client refund_ids w :
  exists needs,
    (requiring_approval env flag client refund_ids w).1 = Normal needs
    /\ sublist needs refund_ids.
Proof.
  destruct flag; simpl.
  - destruct (approve_each_sublist env client refund_ids [] w)
      as (extra & Run & Sub).
    exists extra. now split.
  - exists refund_ids. split; [reflexivity | reflexivity].
Qed.

Lemma approve_each_filter env client (fails : Z -> bool) refund_ids :
  (forall refund_id h,
      In refund_id refund_ids ->
      is_raised (refunds_process_put env client refund_id
                   "approve_payment_only" h) = fails refund_id) ->
  forall acc w,
    (approve_each env client refund_ids acc w).1
    = Normal (acc ++ List.filter fails refund_ids).
Proof.
  induction refund_ids as [| refund_id rest IH]; intros Fails acc w.
  - simpl. now rewrite app_nil_r.
  - cbn [approve_each]. rewrite bind_eq. unfold try_except.
    rewrite bind_eq. unfold invoke at 1.
    pose proof (Fails refund_id (trace w) (or_introl eq_refl)) as Here.
    destruct (refunds_process_put env client refund_id "approve_payment_only"
                (trace w)) as [[] | e]; cbn [is_raised] in Here;
      cbn [List.filter]; rewrite <- Here.
    + rewrite bind_eq. cbn [log_info log ret].
      apply IH. intros r h Hr. apply Fails. now right.
    + unfold except_all. rewrite bind_eq. cbn [log_exception log ret].
      rewrite IH by (intros r h Hr; apply Fails; now right).
      now rewrite <- app_assoc.
Qed.

(** X7. When the fate of an approval depends on the refund ID only, the
    refunds requiring approval are the opened IDs filtered by it: all of
    them when every approval fails, none when every approval succeeds. *)
Theorem requiring_approval_filter env client (fails : Z -> bool) refund_ids w :
  (forall refund_id h,
      In refund_id refund_ids ->
      is_raised (refunds_process_put env client refund_id
                   "approve_payment_only" h) = fails refund_id) ->
  (requiring_approval env true client refund_ids w).1
  = Normal (List.filter fails refund_ids).
Proof.
  intros Fails. unfold requiring_approval.
  now rewrite (approve_each_filter env client fails refund_ids Fails [] w).
Qed.

Lemma requiring_approval_filter_witness :
  (requiring_approval (Scenario.env_of Scenario.second_of_three_fails) true
     (mkClient Scenario.worker) [501; 502; 503] Scenario.start).1
  = Normal (List.filter (fun refund_id => Z.eqb refund_id 502)
              [501; 502; 503]).
Proof.
  apply (requiring_approval_filter
           (Scenario.env_of Scenario.second_of_three_fails)
           (mkClient Scenario.worker) (fun refund_id => Z.eqb refund_id 502)
           [501; 502; 503] Scenario.start).
  intros refund_id h _.
  change (is_raised (if Z.eqb refund_id 502
                     then Raised (ExceptionSubclass "Timeout" (Bytes "read timed out"))
                     else Normal tt)
          = Z.eqb refund_id 502).
  destruct (Z.eqb refund_id 502); reflexivity.
Defined.

Lemma approve_each_records env client refund_ids :
  forall acc w,
  exists extra seg,
    approve_each env client refund_ids acc w
    = (Normal (acc ++ extra), mkWorld (heap w) (trace w ++ seg))
    /\ map fst (approval_records seg) = refund_ids
    /\ map fst (List.filter (fun r => negb r.2) (approval_records seg))
       = extra.
Proof.
  induction refund_ids as [| refund_id rest IH]; intros acc w.
  - exists [], []. simpl. rewrite !app_nil_r. now destruct w.
  - cbn [approve_each]. rewrite bind_eq. unfold try_except.
    rewrite bind_eq. unfold invoke at 1.
    destruct (refunds_process_put env client refund_id "approve_payment_only"
                (trace w)) as [[] | e].
    + rewrite bind_eq. cbn [log_info log ret].
      match goal with
      | |- context [approve_each env client rest acc ?w0] =>
          destruct (IH acc w0) as (extra & seg & Run & Ids & Failed)
      end.
      exists extra, (approved client refund_id ++ seg).
      split; [| split].
      * rewrite Run. cbn [heap trace emit approved]. unfold approval_of.
        now rewrite <- !app_assoc.
      * simpl. now rewrite Ids.
      * simpl. exact Failed.
    + unfold except_all. rewrite bind_eq. cbn [log_exception log ret].
      match goal with
      | |- context [approve_each env client rest ?a ?w0] =>
          destruct (IH a w0) as (extra & seg & Run & Ids & Failed)
      end.
      exists (refund_id :: extra),
             ([approval_of client refund_id;
               Log ERROR "Failed to automatically approve refund [%d]!"
                 [ArgInt refund_id] (Some e)] ++ seg).
      split; [| split].
      * rewrite Run. cbn [heap trace emit]. unfold approval_of.
        now rewrite <- !app_assoc.
      * simpl. now rewrite Ids.
      * simpl. now rewrite Failed.
Qed.

(** X8. The approval loop writes exactly one record per refund ID, in the
    order of the list, saying whether the refund was approved; the refunds
    requiring approval are those recorded as failed. *)
Theorem one_record_per_refund env client refund_ids w :
  exists needs seg,
    requiring_approval env true client refund_ids w
    = (Normal needs, mkWorld (heap w) (trace w ++ seg))
    /\ map fst (approval_records seg) = refund_ids
    /\ map fst (List.filter (fun r => negb r.2) (approval_records seg))
       = needs.
Proof.
  destruct (approve_each_records env client refund_ids [] w)
    as (extra & seg & Run & Ids & Failed).
  exists extra, seg. now repeat split.
Qed.

(** ** The notification *)

(** X9. On a themed site [send_refund_notification] fails fast: the only
    thing it asks is whether the site is themed; the profile and the site
    configuration are not read and no ticket is posted. *)
Theorem themed_site_fails_fast env product refund_ids w :
  is_request_in_themed_site env (trace w) = Normal true ->
  exists w',
    send_refund_notification env product refund_ids w
    = (Raised (NotImplementedError
                 "Unable to send refund processing emails to support teams."),
       w')
    /\ trace w' = trace w ++ [Called IsRequestInThemedSite].
Proof.
  intros Themed. unfold send_refund_notification.
  rewrite bind_eq. cbn [new_list]. rewrite bind_eq. unfold invoke.
  cbn [trace]. rewrite Themed. eexists. split; reflexivity.
Qed.

Lemma themed_site_fails_fast_witness :
  exists w',
    send_refund_notification (Scenario.env_of Scenario.themed_site)
      (Enrollment (Scenario.seat "verified")) [501] Scenario.start
    = (Raised (NotImplementedError
                 "Unable to send refund processing emails to support teams."),
       w')
    /\ trace w' = [] ++ [Called IsRequestInThemedSite].
Proof.
  apply (themed_site_fails_fast (Scenario.env_of Scenario.themed_site)
           (Enrollment (Scenario.seat "verified")) [501] Scenario.start).
  reflexivity.
Defined.

Lemma truthy_Some s : s <> "" -> truthy (Some s) = true.
Proof. intros Hs. simpl. apply String.eqb_neq in Hs. now rewrite Hs. Qed.

(** The run of [create_zendesk_ticket] when Zendesk is configured: one
    POST, whose payload is the ticket with the de-duplicated tags, then
    one record. *)
Lemma create_zendesk_ticket_run env name mail subject body tags given w
    url user key :
  zendesk_settings env url user key ->
  tags_hold w tags given ->
  exists record,
    trace (create_zendesk_ticket env name mail subject body tags w).2
    = trace w
      ++ ticket_post env url user key
           (json_dumps env
              (ticket_json name mail subject body
                 (list_set (given ++ ["LMS"]))))
         :: record
    /\ List.existsb is_ticket_post record = false.
Proof.
  intros (Url & User & Key & Hurl & Huser & Hkey) Tags.
  unfold create_zendesk_ticket. rewrite Url, User, Key.
  rewrite !truthy_Some by assumption. cbn [andb negb default].
  assert (Given : match tags with
                  | Some l => read_list l
                  | None => ret []
                  end w = (Normal given, w)).
  { destruct tags as [l |]; unfold tags_hold in Tags.
    - unfold read_list. now rewrite Tags.
    - now subst given. }
  rewrite bind_eq, Given.
  unfold bind, read_list, new_list, list_append, ret, try_except, invoke,
    log_error, log_debug, log_exception, log, except_Exception, emit.
  cbn [trace heap].
  repeat (rewrite lookup_insert_eq; cbn [default from_option id]).
  unfold ticket_post, ticket_json.
  match goal with
  | |- context [requests_post env ?u ?d ?a ?hd (trace w)] =>
      destruct (requests_post env u d a hd (trace w)) as [r | e];
      [ destruct (negb (Z.eqb (status_code r) 201))
      | destruct (isinstance_Exception e) ]
  end;
  cbn [snd trace];
  (eexists; split; [now rewrite <- ?app_assoc | reflexivity]).
Qed.

(** X10. With Zendesk configured, [create_zendesk_ticket] posts once, to
    the tickets endpoint of the configured URL, authenticating as
    [<user>/token] with the API key; the tags of the ticket are the
    caller's tags and the marker [LMS], each of them once. *)
Theorem ticket_request env name mail subject body tags given w url user key :
  zendesk_settings env url user key ->
  tags_hold w tags given ->
  exists tag_values record,
    trace (create_zendesk_ticket env name mail subject body tags w).2
    = trace w
      ++ ticket_post env url user key
           (json_dumps env (ticket_json name mail subject body tag_values))
         :: record
    /\ List.existsb is_ticket_post record = false
    /\ NoDup tag_values
    /\ forall tag, tag ∈ tag_values <-> tag ∈ given \/ tag = "LMS".
Proof.
  intros Settings Tags.
  destruct (create_zendesk_ticket_run env name mail subject body tags given w
              url user key Settings Tags) as (record & Run & Once).
  exists (list_set (given ++ ["LMS"])), record.
  split; [exact Run | split; [exact Once | split]].
  - apply NoDup_remove_dups.
  - intros tag. unfold list_set.
    rewrite elem_of_remove_dups, elem_of_app, list_elem_of_singleton.
    reflexivity.
Qed.

Lemma ticket_request_witness :
  zendesk_settings (Scenario.env_of Scenario.smooth)
    "https://support.example.com" "support@example.com" "secret"
  /\ tags_hold (Scenario.with_tags ["auto_refund"; "LMS"]) (Some 0%nat)
       ["auto_refund"; "LMS"]
  /\ exists tag_values record,
       trace (create_zendesk_ticket (Scenario.env_of Scenario.smooth)
                "Alice A." "alice@example.com" "subject" "body" (Some 0%nat)
                (Scenario.with_tags ["auto_refund"; "LMS"])).2
       = [] ++ ticket_post (Scenario.env_of Scenario.smooth)
                 "https://support.example.com" "support@example.com" "secret"
                 (json_dumps (Scenario.env_of Scenario.smooth)
                    (ticket_json "Alice A." "alice@example.com" "subject"
                       "body" tag_values))
               :: record
       /\ NoDup tag_values.
Proof.
  assert (Settings : zendesk_settings (Scenario.env_of Scenario.smooth)
                       "https://support.example.com" "support@example.com"
                       "secret")
    by (repeat split; discriminate).
  assert (Tags : tags_hold (Scenario.with_tags ["auto_refund"; "LMS"])
                   (Some 0%nat) ["auto_refund"; "LMS"])
    by (vm_compute; reflexivity).
  split; [exact Settings | split; [exact Tags |]].
  destruct (ticket_request (Scenario.env_of Scenario.smooth)
              "Alice A." "alice@example.com" "subject" "body" (Some 0%nat)
              ["auto_refund"; "LMS"]
              (Scenario.with_tags ["auto_refund"; "LMS"])
              "https://support.example.com" "support@example.com" "secret"
              Settings Tags)
    as (tag_values & record & Run & _ & Distinct & _).
  exists tag_values, record. split; [exact Run | exact Distinct].
Defined.

(** X11. On a site that is not themed and with Zendesk configured,
    [send_refund_notification] asks three questions and posts one ticket:
    the requester is the student, under the name of the profile or, when
    that is empty, the username; the body is the message followed by one
    review link per refund ID; the tags are [auto_refund] and [LMS]. *)
Theorem refund_ticket env product refund_ids w msg root name url user key :
  notification_inputs env (product_user product) msg root name ->
  zendesk_settings env url user key ->
  let student := product_user product in
  exists tag_values record,
    trace (send_refund_notification env product refund_ids w).2
    = trace w
      ++ [Called IsRequestInThemedSite;
          Called (SiteConfigurationGetValue "ECOMMERCE_PUBLIC_URL_ROOT"
                    (ECOMMERCE_PUBLIC_URL_ROOT (settings env)));
          Called (UserProfileName student)]
      ++ ticket_post env url user key
           (json_dumps env
              (ticket_json
                 (if String.eqb name "" then username student else name)
                 (email student)
                 (ugettext env "[Refund] User-Requested Refund")
                 (notification_body env msg root refund_ids)
                 tag_values))
         :: record
    /\ List.existsb is_ticket_post record = false
    /\ NoDup tag_values
    /\ forall tag, tag ∈ tag_values <-> tag = "auto_refund" \/ tag = "LMS".
Proof.
  intros (Plain & Format & Root & Profile) Settings student.
  unfold refund_message_template in Format.
  exists (list_set (["auto_refund"] ++ ["LMS"])).
  unfold send_refund_notification. cbv zeta.
  rewrite bind_eq. cbn [new_list]. rewrite bind_eq. unfold invoke at 1.
  rewrite Plain. rewrite bind_eq.
  unfold generate_refund_notification_body at 1. cbv zeta.
  rewrite bind_eq. unfold lift at 1. rewrite Format.
  rewrite bind_eq. unfold invoke at 1. rewrite Root. unfold ret at 1.
  rewrite bind_eq. unfold invoke at 1. rewrite Profile.
  fold student. fold (notification_body env msg root refund_ids).
  match goal with
  | |- context [create_zendesk_ticket env ?n ?m ?s ?b (Some ?l) ?w0] =>
      destruct (create_zendesk_ticket_run env n m s b (Some l) ["auto_refund"]
                  w0 url user key Settings) as (record & Run & Once);
      [ cbn [tags_hold heap emit]; apply lookup_insert_eq |]
  end.
  exists record. split; [| split; [exact Once | split]].
  - rewrite Run. cbn [trace emit]. now rewrite <- !app_assoc.
  - apply NoDup_remove_dups.
  - intros tag. unfold list_set.
    rewrite elem_of_remove_dups, elem_of_app, !list_elem_of_singleton.
    reflexivity.
Qed.

Lemma refund_ticket_witness :
  notification_inputs (Scenario.env_of Scenario.smooth) Scenario.alice
    refund_message_template "https://ecommerce.example.com" "Alice A."
  /\ exists tag_values record,
       trace (send_refund_notification (Scenario.env_of Scenario.smooth)
                (Enrollment (Scenario.seat "verified")) [501; 502]
                Scenario.start).2
       = [] ++ [Called IsRequestInThemedSite;
                Called (SiteConfigurationGetValue "ECOMMERCE_PUBLIC_URL_ROOT"
                          "https://ecommerce.example.com");
                Called (UserProfileName Scenario.alice)]
            ++ ticket_post (Scenario.env_of Scenario.smooth)
                 "https://support.example.com" "support@example.com" "secret"
                 (json_dumps (Scenario.env_of Scenario.smooth)
                    (ticket_json "Alice A." "alice@example.com"
                       "[Refund] User-Requested Refund"
                       (notification_body (Scenario.env_of Scenario.smooth)
                          refund_message_template
                          "https://ecommerce.example.com" [501; 502])
                       tag_values))
               :: record
       /\ NoDup tag_values.
Proof.
  assert (Inputs : notification_inputs (Scenario.env_of Scenario.smooth)
                     Scenario.alice refund_message_template
                     "https://ecommerce.example.com" "Alice A.")
    by (repeat split).
  assert (Settings : zendesk_settings (Scenario.env_of Scenario.smooth)
                       "https://support.example.com" "support@example.com"
                       "secret")
    by (repeat split; discriminate).
  split; [exact Inputs |].
  destruct (refund_ticket (Scenario.env_of Scenario.smooth)
              (Enrollment (Scenario.seat "verified")) [501; 502]
              Scenario.start refund_message_template
              "https://ecommerce.example.com" "Alice A."
              "https://support.example.com" "support@example.com" "secret"
              Inputs Settings)
    as (tag_values & record & Run & _ & Distinct & _).
  exists tag_values, record. split; [exact Run | exact Distinct].
Defined.

(** The body for two refunds. *)
Example notification_body_two_refunds :
  notification_body (Scenario.env_of Scenario.smooth) "A refund was requested."
    "https://ecommerce.example.com" [501; 502]
  = "A refund was requested." +:+ newline +:+ newline
    +:+ "https://ecommerce.example.com/dashboard/refunds/501/" +:+ newline
    +:+ "https://ecommerce.example.com/dashboard/refunds/502/".
Proof. vm_compute. reflexivity. Qed.

(** ** How many requests a receiver sends *)

Lemma count_events_app P s1 s2 :
  count_events P (s1 ++ s2) = (count_events P s1 + count_events P s2)%nat.
Proof. unfold count_events. now rewrite List.filter_app, length_app. Qed.

Lemma count_events_quiet seg :
  forallb quiet seg = true ->
  count_events is_refund_post seg = 0%nat
  /\ count_events is_ticket_post seg = 0%nat.
Proof.
  induction seg as [| ev rest IH]; [now split |].
  cbn [forallb]. intros [Hev Hrest]%andb_prop.
  destruct (IH Hrest) as [Opens Tickets]. unfold quiet in Hev.
  apply negb_true_iff, orb_false_iff in Hev. destruct Hev as [NoOpen NoTicket].
  unfold count_events in *. cbn [List.filter].
  rewrite NoOpen, NoTicket. now split.
Qed.

Lemma within_quiet {A} (m : Py A) : emits quiet m -> within 0 0 m.
Proof.
  intros Hm w. destruct (Hm w) as (seg & E & Q).
  destruct (count_events_quiet seg Q) as [Opens Tickets].
  exists seg. rewrite Opens, Tickets. now repeat split.
Qed.

Lemma within_weaken {A} a b a' b' (m : Py A) :
  within a b m -> (a <= a')%nat -> (b <= b')%nat -> within a' b' m.
Proof.
  intros Hm Ha Hb w. destruct (Hm w) as (seg & E & Opens & Tickets).
  exists seg. repeat split; [exact E | lia | lia].
Qed.

Lemma within_bind {A B} a b a' b' (m : Py A) (k : A -> Py B) :
  within a b m -> (forall x, within a' b' (k x)) ->
  within (a + a') (b + b') (bind m k).
Proof.
  intros Hm Hk w. rewrite bind_eq.
  destruct (Hm w) as (seg & E & Opens & Tickets).
  destruct (m w) as [[x | e] w1]; cbn [snd] in *.
  - destruct (Hk x w1) as (seg' & E' & Opens' & Tickets').
    exists (seg ++ seg'). rewrite !count_events_app. repeat split; [| lia | lia].
    now rewrite E', E, app_assoc.
  - exists seg. repeat split; [exact E | lia | lia].
Qed.

Lemma within_try_except {A} a b a' b' (body : Py A) catches handler :
  within a b body -> (forall e, within a' b' (handler e)) ->
  within (a + a') (b + b') (try_except body catches handler).
Proof.
  intros Hb Hh w. unfold try_except.
  destruct (Hb w) as (seg & E & Opens & Tickets).
  destruct (body w) as [[x | e] w1]; cbn [snd] in *.
  - exists seg. repeat split; [exact E | lia | lia].
  - destruct (catches e).
    + destruct (Hh e w1) as (seg' & E' & Opens' & Tickets').
      exists (seg ++ seg'). rewrite !count_events_app.
      repeat split; [| lia | lia]. now rewrite E', E, app_assoc.
    + exists seg. repeat split; [exact E | lia | lia].
Qed.

Lemma within_invoke {A} c (answer : list event -> outcome A) :
  within (if is_refund_post (Called c) then 1 else 0)
         (if is_ticket_post (Called c) then 1 else 0) (invoke c answer).
Proof.
  intros w. exists [Called c]. split; [reflexivity |].
  unfold count_events. cbn [List.filter].
  destruct (is_refund_post (Called c)), (is_ticket_post (Called c));
    cbn [length]; lia.
Qed.

Ltac quiet_tac := apply within_quiet; emits_auto; try reflexivity.

Lemma within_create_zendesk_ticket env name mail subject body tags :
  within 0 1 (create_zendesk_ticket env name mail subject body tags).
Proof.
  unfold create_zendesk_ticket. cbv zeta.
  destruct (negb _); [eapply within_weaken; [quiet_tac | lia | lia] |].
  apply (within_bind 0 0 0 1); [quiet_tac | intros given].
  apply (within_bind 0 0 0 1); [quiet_tac | intros copy].
  apply (within_bind 0 0 0 1); [quiet_tac | intros _].
  apply (within_bind 0 0 0 1); [quiet_tac | intros with_marker].
  apply (within_bind 0 0 0 1); [quiet_tac | intros unique].
  apply (within_bind 0 0 0 1); [quiet_tac | intros tag_values].
  apply (within_try_except 0 1 0 0); [| intros e; quiet_tac].
  apply (within_bind 0 1 0 0); [apply within_invoke | intros r; quiet_tac].
Qed.

Lemma within_send_refund_notification env product refund_ids :
  within 0 1 (send_refund_notification env product refund_ids).
Proof.
  unfold send_refund_notification. cbv zeta.
  apply (within_bind 0 0 0 1); [quiet_tac | intros tags].
  apply (within_bind 0 0 0 1); [quiet_tac | intros themed].
  destruct themed; [eapply within_weaken; [quiet_tac | lia | lia] |].
  apply (within_bind 0 0 0 1); [| intros body].
  { unfold generate_refund_notification_body. cbv zeta. quiet_tac. }
  apply (within_bind 0 0 0 1); [quiet_tac | intros name].
  apply within_create_zendesk_ticket.
Qed.

Lemma within_notify_or_skip env product is_entitlement needs :
  within 0 1 (notify_or_skip env product is_entitlement needs).
Proof.
  unfold notify_or_skip. cbv zeta.
  destruct (nonempty needs); [| eapply within_weaken; [quiet_tac | lia | lia]].
  destruct (negb _).
  - eapply within_weaken; [| apply Nat.le_refl | apply Nat.le_0_l].
    destruct product, is_entitlement; cbn [getattr_course_id getattr_uuid];
      quiet_tac.
  - apply (within_try_except 0 1 0 0); [| intros e; quiet_tac].
    apply within_send_refund_notification.
Qed.

Lemma emits_approve_each_quiet env client refund_ids :
  forall acc, emits quiet (approve_each env client refund_ids acc).
Proof.
  induction refund_ids as [| refund_id rest IH]; intros acc; simpl.
  - apply emits_ret.
  - apply emits_bind; [| intros acc'; apply IH].
    apply emits_try_except; [| intros e]; emits_auto; reflexivity.
Qed.

Lemma within_process_refund env refund_ids client product is_entitlement :
  within 0 1 (_process_refund env refund_ids client product is_entitlement).
Proof.
  unfold _process_refund.
  apply (within_bind 0 0 0 1); [quiet_tac | intros flag].
  apply (within_bind 0 0 0 1); [| intros needs; apply within_notify_or_skip].
  apply within_quiet. destruct flag; simpl;
    [apply emits_approve_each_quiet | apply emits_ret].
Qed.

Lemma within_refund_seat env ce : within 1 1 (refund_seat env ce).
Proof.
  unfold refund_seat. cbv zeta.
  apply (within_bind 0 0 1 1); [quiet_tac | intros su].
  apply (within_bind 0 0 1 1); [quiet_tac | intros client].
  apply (within_bind 0 0 1 1); [quiet_tac | intros _].
  apply (within_bind 1 0 0 1); [apply within_invoke | intros ids].
  apply (within_bind 0 1 0 0); [| intros _; quiet_tac].
  destruct (nonempty ids); [| eapply within_weaken; [quiet_tac | lia | lia]].
  apply (within_bind 0 0 0 1); [quiet_tac | intros _].
  apply within_process_refund.
Qed.

Lemma within_refund_entitlement env ent : within 1 1 (refund_entitlement env ent).
Proof.
  unfold refund_entitlement. cbv zeta.
  apply (within_bind 0 0 1 1); [quiet_tac | intros su].
  apply (within_bind 0 0 1 1); [quiet_tac | intros client].
  apply (within_bind 0 0 1 1); [quiet_tac | intros _].
  apply (within_bind 1 0 0 1); [apply within_invoke | intros ids].
  apply (within_bind 0 1 0 0); [| intros _; quiet_tac].
  destruct (nonempty ids); [| eapply within_weaken; [quiet_tac | lia | lia]].
  apply (within_bind 0 0 0 1); [quiet_tac | intros _].
  apply within_process_refund.
Qed.

(** X12. Whatever the collaborators answer, one run of a receiver sends
    at most one request to open a refund and posts at most one ticket. *)
Theorem receivers_send_at_most_once env :
  (forall course_enrollment,
      within 1 1 (handle_refund_order env course_enrollment))
  /\ (forall course_entitlement,
        within 1 1 (handle_refund_entitlement env course_entitlement)).
Proof.
  split.
  - intros course_enrollment. unfold handle_refund_order.
    apply (within_bind 0 0 1 1); [quiet_tac | intros configured].
    destruct (negb configured);
      [eapply within_weaken; [quiet_tac | lia | lia] |].
    destruct course_enrollment as [ce |];
      [| eapply within_weaken; [quiet_tac | lia | lia]].
    apply (within_bind 0 0 1 1); [quiet_tac | intros is_refundable].
    destruct is_refundable; [| eapply within_weaken; [quiet_tac | lia | lia]].
    apply (within_try_except 1 1 0 0); [| intros e; quiet_tac].
    apply (within_bind 0 0 1 1);
      [unfold get_request_user; quiet_tac | intros requester].
    destruct (isinstance_AnonymousUser _);
      [eapply within_weaken; [quiet_tac | lia | lia] |].
    apply (within_bind 1 1 0 0); [apply within_refund_seat | intros; quiet_tac].
  - intros course_entitlement. unfold handle_refund_entitlement.
    apply (within_bind 0 0 1 1); [quiet_tac | intros configured].
    destruct (negb configured);
      [eapply within_weaken; [quiet_tac | lia | lia] |].
    destruct course_entitlement as [ent |];
      [| eapply within_weaken; [quiet_tac | lia | lia]].
    apply (within_bind 0 0 1 1); [quiet_tac | intros is_refundable].
    destruct is_refundable; [| eapply within_weaken; [quiet_tac | lia | lia]].
    apply (within_try_except 1 1 0 0); [| intros e; quiet_tac].
    apply (within_bind 0 0 1 1);
      [unfold get_request_user; quiet_tac | intros requester].
    destruct requester as [requester |];
      [| eapply within_weaken; [quiet_tac | lia | lia]].
    destruct (user_eq _ _); [| eapply within_weaken; [quiet_tac | lia | lia]].
    apply (within_bind 1 1 0 0);
      [apply within_refund_entitlement | intros; quiet_tac].
Qed.

(** ** For whom the refund is requested *)

Lemma emits_approve_each_log_and_approve env P client refund_ids :
  (forall c refund_id action,
      P (Called (RefundsProcessPut c refund_id action)) = true) ->
  (forall lvl fmt args exc, P (Log lvl fmt args exc) = true) ->
  forall acc, emits P (approve_each env client refund_ids acc).
Proof.
  intros Approve Logs.
  induction refund_ids as [| refund_id rest IH]; intros acc; simpl.
  - apply emits_ret.
  - apply emits_bind; [| intros acc'; apply IH].
    apply emits_try_except; [| intros e]; emits_auto;
      first [apply Approve | apply Logs].
Qed.

Lemma opens_for_other payload ev :
  is_commerce_request ev = false -> opens_for payload ev = true.
Proof. destruct ev as [? ? ? ? | []]; cbn; congruence. Qed.

Lemma emits_process_refund_opens_for env payload refund_ids client product
    is_entitlement :
  emits (opens_for payload)
    (_process_refund env refund_ids client product is_entitlement).
Proof.
  unfold _process_refund.
  apply emits_bind; [now apply emits_invoke | intros flag].
  apply emits_bind.
  - destruct flag; simpl; [| apply emits_ret].
    now apply emits_approve_each_log_and_approve.
  - intros needs. apply emits_notify_or_skip. apply opens_for_other.
Qed.

(** X13. Whoever triggers it, the refund a receiver asks for is the one
    of the owner of the product: every request to open a refund carries
    the course and the username of the enrollee, or the order number, the
    username of the owner and the UUID of the entitlement. *)
Theorem refund_requested_for_owner env :
  (forall ce, emits (opens_for (seat_refund_request ce))
                (handle_refund_order env (Some ce)))
  /\ (forall ent, emits (opens_for (entitlement_refund_request ent))
                    (handle_refund_entitlement env (Some ent))).
Proof.
  split.
  - intros ce. unfold handle_refund_order.
    apply emits_bind; [now apply emits_invoke | intros configured].
    destruct (negb configured); [apply emits_ret |].
    apply emits_bind; [now apply emits_invoke | intros is_refundable].
    destruct is_refundable; [| apply emits_ret].
    apply emits_try_except; [| intros e; now apply emits_log].
    apply emits_bind;
      [unfold get_request_user; emits_auto; reflexivity | intros requester].
    destruct (isinstance_AnonymousUser _); [apply emits_ret |].
    apply emits_bind; [| intros; apply emits_ret].
    unfold refund_seat. cbv zeta.
    apply emits_bind; [now apply emits_invoke | intros su].
    apply emits_bind; [now apply emits_invoke | intros client].
    apply emits_bind; [now apply emits_log | intros _].
    apply emits_bind; [| intros ids].
    { apply emits_invoke. cbn. now apply bool_decide_eq_true. }
    apply emits_bind; [| intros _; apply emits_ret].
    destruct (nonempty ids); [| now apply emits_log].
    apply emits_bind; [now apply emits_log | intros _].
    apply emits_process_refund_opens_for.
  - intros ent. unfold handle_refund_entitlement.
    apply emits_bind; [now apply emits_invoke | intros configured].
    destruct (negb configured); [apply emits_ret |].
    apply emits_bind; [now apply emits_invoke | intros is_refundable].
    destruct is_refundable; [| apply emits_ret].
    apply emits_try_except; [| intros e; emits_auto; reflexivity].
    apply emits_bind;
      [unfold get_request_user; emits_auto; reflexivity | intros requester].
    destruct requester as [requester |]; [| apply emits_ret].
    destruct (user_eq _ _); [| apply emits_ret].
    apply emits_bind; [| intros; apply emits_ret].
    unfold refund_entitlement. cbv zeta.
    apply emits_bind; [now apply emits_invoke | intros su].
    apply emits_bind; [now apply emits_invoke | intros client].
    apply emits_bind; [now apply emits_log | intros _].
    apply emits_bind; [| intros ids].
    { apply emits_invoke. cbn. now apply bool_decide_eq_true. }
    apply emits_bind; [| intros _; apply emits_ret].
    destruct (nonempty ids); [| now apply emits_log].
    apply emits_bind; [now apply emits_log | intros _].
    apply emits_process_refund_opens_for.
Qed.

(** ** Enrollments in a mode other than verified *)

Lemma emits_notify_or_skip_suppressed env P ce needs :
  enrollment_mode ce <> "verified" ->
  (forall lvl fmt args exc, P (Log lvl fmt args exc) = true) ->
  emits P (notify_or_skip env (Enrollment ce) false needs).
Proof.
  intros Mode Logs w. destruct needs as [| refund_id rest].
  - apply extends_refl.
  - rewrite enrollment_notification_suppressed by (assumption || discriminate).
    apply extends_emit, Logs.
Qed.

(** X14. For an enrollment in a mode other than verified, [refund_seat]
    returns the refund IDs that were opened without ever reaching the
    notification, whether automatic approval is enabled or not and
    whether the approvals fail or not: it does not ask whether the site is
    themed and posts no ticket. *)
Theorem unverified_seat_never_notifies env client ids ce w :
  refunds_opened env client ids ->
  enrollment_mode ce <> "verified" ->
  (refund_seat env ce w).1 = Normal ids
  /\ exists seg,
       trace (refund_seat env ce w).2 = trace w ++ seg
       /\ forallb (fun ev => negb (is_notification_attempt ev
                                   || is_ticket_post ev)) seg = true.
Proof.
  intros ((Lookup & Post) & Config) Mode. split.
  - unfold refund_seat. cbv zeta.
    rewrite bind_eq. unfold invoke at 1.
    destruct (Lookup (trace w)) as (su & -> & Client).
    rewrite bind_eq. unfold invoke at 1. rewrite Client.
    rewrite bind_eq. cbn [log_info log].
    rewrite bind_eq. unfold invoke at 1. rewrite Post.
    destruct ids as [| refund_id rest]; cbn [nonempty];
      [now rewrite bind_eq |].
    rewrite bind_eq, bind_eq. cbn [log_info log].
    unfold _process_refund. rewrite bind_eq. unfold invoke at 1.
    match goal with
    | |- context [CommerceConfiguration_current env ?h] =>
        destruct (Config h) as (flag & ->)
    end.
    rewrite bind_eq.
    match goal with
    | |- context [requiring_approval env flag client ?i ?w0] =>
        destruct (requiring_approval_returns env flag client i w0)
          as (needs & seg & ->)
    end.
    match goal with
    | |- context [notify_or_skip env ?p false needs ?w0] =>
        destruct (notify_or_skip_enrollment_returns env ce needs w0)
          as (w1 & ->)
    end.
    reflexivity.
  - assert (Silent : emits (fun ev => negb (is_notification_attempt ev
                                           || is_ticket_post ev))
                       (refund_seat env ce)).
    { unfold refund_seat. cbv zeta.
      apply emits_bind; [now apply emits_invoke | intros su].
      apply emits_bind; [now apply emits_invoke | intros api].
      apply emits_bind; [now apply emits_log | intros _].
      apply emits_bind; [now apply emits_invoke | intros opened].
      apply emits_bind; [| intros _; apply emits_ret].
      destruct (nonempty opened); [| now apply emits_log].
      apply emits_bind; [now apply emits_log | intros _].
      unfold _process_refund.
      apply emits_bind; [now apply emits_invoke | intros flag].
      apply emits_bind.
      - destruct flag; simpl; [| apply emits_ret].
        now apply emits_approve_each_log_and_approve.
      - intros needs. now apply emits_notify_or_skip_suppressed. }
    exact (Silent w).
Qed.

Lemma unverified_seat_never_notifies_witness :
  refunds_opened (Scenario.env_of Scenario.manual_approval)
    (mkClient Scenario.worker) [501]
  /\ (refund_seat (Scenario.env_of Scenario.manual_approval)
        (Scenario.seat "honor") Scenario.start).1
     = Normal [501].
Proof.
  assert (Opened : refunds_opened (Scenario.env_of Scenario.manual_approval)
                     (mkClient Scenario.worker) [501]).
  { repeat split.
    - intros h. exists Scenario.worker. split; reflexivity.
    - intros h. exists false. reflexivity. }
  assert (Mode : enrollment_mode (Scenario.seat "honor") <> "verified")
    by discriminate.
  split; [exact Opened |].
  destruct (unverified_seat_never_notifies
              (Scenario.env_of Scenario.manual_approval)
              (mkClient Scenario.worker) [501] (Scenario.seat "honor")
              Scenario.start Opened Mode) as [Returned _].
  exact Returned.
Defined.

